(** * Local discovery (lib/discover/local.go)

    A shallow embedding of the local discovery client: the reachability
    cache read by [Lookup], the registration of received announcements
    ([registerDevice]), the receive loop ([recvAnnouncements]), the
    construction of the outgoing announcement ([announcementPkt]) and the
    address helpers ([addrToAddr], [resolveAddrs]).

    Go values are modelled as follows: [int], [int32], [int64] and
    [time.Duration] are [Z] with the conversions written out; [time.Time]
    is the reading of the clock in nanoseconds; [[]byte] is [list byte];
    [string] is [string]; a nil slice is the empty list; a
    [(value, error)] result whose error is only tested against nil is an
    [option]. *)

From Stdlib Require Import ZArith List Lia DecimalString.
From Stdlib.Strings Require Import String Ascii Byte.
From stdpp Require Import gmap list.

Open Scope Z_scope.

(** ** Errors *)

(** The error values the file tests or declares. [io.EOF] is compared by
    identity in the receive loop; [ErrIncorrectMagic] is declared in
    local.go; everything else is an [OtherError]. *)
Inductive error : Type :=
  | io_EOF
  | ErrIncorrectMagic
  | OtherError (msg : string).

Definition error_eqb (a b : error) : bool :=
  match a, b with
  | io_EOF, io_EOF => true
  | ErrIncorrectMagic, ErrIncorrectMagic => true
  | OtherError m, OtherError n => String.eqb m n
  | _, _ => false
  end.

(** ** Time *)

Definition Time := Z.
Definition Duration := Z.

Definition minDuration : Duration := - 2 ^ 63.
Definition maxDuration : Duration := 2 ^ 63 - 1.

Definition Nanosecond : Duration := 1.
Definition Microsecond : Duration := 1000 * Nanosecond.
Definition Millisecond : Duration := 1000 * Microsecond.
Definition Second : Duration := 1000 * Millisecond.

(** [t.Sub(u)]: the difference, saturated at the ends of [Duration]. *)
Definition time_Sub (t u : Time) : Duration :=
  if t - u <? minDuration then minDuration
  else if maxDuration <? t - u then maxDuration
  else t - u.

(** [time.Since(t)], with the clock reading [now] made explicit. *)
Definition time_Since (now t : Time) : Duration := time_Sub now t.

Definition BroadcastInterval : Duration := 30 * Second.
Definition CacheLifeTime : Duration := 3 * BroadcastInterval.

(** Conversion of an integer to [int32]: the low 32 bits, signed. *)
Definition int32 (z : Z) : Z := (z + 2 ^ 31) mod 2 ^ 32 - 2 ^ 31.

(** ** Wire and cache data *)

Module Relay.
Record t : Type := mk { URL : string; Latency : Z }.
End Relay.

Module Device.
Record t : Type := mk {
  ID : list byte;
  Addresses : list string;
  Relays : list Relay.t }.
End Device.

Module Announce.
Record t : Type := mk { Magic : Z; This : Device.t }.
End Announce.

(** [protocol.DeviceID] is [[32]byte]; the functions below only build
    identifiers of that length. *)
Abbreviation DeviceID := (list byte).
Definition DeviceIDLength : nat := 32.

Global Instance byte_eq_dec : EqDecision byte := Byte.byte_eq_dec.
Global Instance byte_countable : Countable byte :=
  inj_countable Byte.to_N Byte.of_N Byte.of_to_N.

Module CacheEntry.
Record t : Type := mk {
  Direct : list string;
  Relays : list Relay.t;
  when : Time;
  found : bool }.
(** The zero value, returned by a map read that misses. *)
Definition zero : t := mk [] [] 0 false.
End CacheEntry.

(** Modelled from the spec: the [cache] type embedded in [localClient]
    (its declaration and its [Get] and [Set] methods are not in local.go).
    By section 4.2, [get] reports found only for an identifier that has
    been written, [set] overwrites unconditionally, and nothing is ever
    deleted. *)
Abbreviation cache := (gmap DeviceID CacheEntry.t).

Definition Get (c : cache) (id : DeviceID) : CacheEntry.t * bool :=
  match c !! id with
  | Some ce => (ce, true)
  | None => (CacheEntry.zero, false)
  end.

Definition Set_ (c : cache) (id : DeviceID) (ce : CacheEntry.t) : cache :=
  <[id := ce]> c.

(** [copy(id[:], device.ID)] into a zeroed [[32]byte]: the first 32 bytes
    of the source, the rest of the array keeps its zeros. *)
Definition copyID (src : list byte) : DeviceID :=
  take DeviceIDLength src ++ replicate (DeviceIDLength - length src) x00.

(** ** Lookup *)

(** The named results [direct], [relays] and [err] start out nil; only
    the first two are ever assigned. *)
Definition Lookup (c : cache) (now : Time) (device : DeviceID)
  : list string * list Relay.t * option error :=
  let direct : list string := [] in
  let relays : list Relay.t := [] in
  let err : option error := None in
  let '(ce, ok) := Get c device in
  if ok then
    if time_Since now (CacheEntry.when ce) <? CacheLifeTime
    then (CacheEntry.Direct ce, CacheEntry.Relays ce, err)
    else (direct, relays, err)
  else (direct, relays, err).

(** ** Formatting ([fmt], [unicode/utf8], [strconv]) *)

Definition chr (z : Z) : ascii := ascii_of_N (Z.to_N z).

Definition str (bs : list ascii) : string := string_of_list_ascii bs.

Definition RuneError : Z := 0xFFFD.
Definition MaxRune : Z := 0x10FFFF.

(** [utf8.EncodeRune]: the UTF-8 bytes of a rune; a negative rune, a
    surrogate half and a rune beyond [MaxRune] are encoded as
    [RuneError]. *)
Definition utf8_EncodeRune (r : Z) : string :=
  if (0 <=? r) && (r <=? 0x7F) then str [chr r]
  else if (0 <=? r) && (r <=? 0x7FF) then
    str [chr (Z.lor 0xC0 (Z.shiftr r 6));
         chr (Z.lor 0x80 (Z.land r 0x3F))]
  else
    let r := if (r <? 0) || (MaxRune <? r)
                || ((0xD800 <=? r) && (r <=? 0xDFFF))
             then RuneError else r in
    if r <=? 0xFFFF then
      str [chr (Z.lor 0xE0 (Z.shiftr r 12));
           chr (Z.lor 0x80 (Z.land (Z.shiftr r 6) 0x3F));
           chr (Z.lor 0x80 (Z.land r 0x3F))]
    else
      str [chr (Z.lor 0xF0 (Z.shiftr r 18));
           chr (Z.lor 0x80 (Z.land (Z.shiftr r 12) 0x3F));
           chr (Z.lor 0x80 (Z.land (Z.shiftr r 6) 0x3F));
           chr (Z.lor 0x80 (Z.land r 0x3F))].

(** The verb [%c] applied to an [int]: the character with that code
    point, [RuneError] when the value is not one. *)
Definition fmt_c (c : Z) : string :=
  utf8_EncodeRune (if (c <? 0) || (MaxRune <? c) then RuneError else c).

(** The verb [%d] applied to an [int]: signed decimal. *)
Definition fmt_d (n : Z) : string := NilZero.string_of_int (Z.to_int n).

(** ** Addresses ([net], [net/url]) *)

Definition IPv4len : nat := 4.
Definition IPv6len : nat := 16.

Definition v4InV6Prefix : list byte :=
  [x00; x00; x00; x00; x00; x00; x00; x00; x00; x00; xff; xff].

(** [net.IPv4(a, b, c, d)]: the 16-byte form of an IPv4 address. *)
Definition IPv4 (a b c d : byte) : list byte := v4InV6Prefix ++ [a; b; c; d].

Definition IPv4zero : list byte := IPv4 x00 x00 x00 x00.
Definition IPv6unspecified : list byte := replicate IPv6len x00.

Definition bytesEqual (a b : list byte) : bool := bool_decide (a = b).

(** [ip.Equal(x)]: an IPv4 address and its 16-byte form are equal. *)
Definition IP_Equal (ip x : list byte) : bool :=
  if Nat.eqb (length ip) (length x) then bytesEqual ip x
  else if Nat.eqb (length ip) IPv4len && Nat.eqb (length x) IPv6len then
    bytesEqual (take 12 x) v4InV6Prefix && bytesEqual ip (drop 12 x)
  else if Nat.eqb (length ip) IPv6len && Nat.eqb (length x) IPv4len then
    bytesEqual (take 12 ip) v4InV6Prefix && bytesEqual (drop 12 ip) x
  else false.

Definition IsUnspecified (ip : list byte) : bool :=
  IP_Equal ip IPv4zero || IP_Equal ip IPv6unspecified.

Definition isZeros (p : list byte) : bool := forallb (Byte.eqb x00) p.

(** [ip.To4()]: the 4-byte form, [None] for nil. *)
Definition To4 (ip : list byte) : option (list byte) :=
  if Nat.eqb (length ip) IPv4len then Some ip
  else if Nat.eqb (length ip) IPv6len && isZeros (take 10 ip)
          && bool_decide (ip !! 10%nat = Some xff)
          && bool_decide (ip !! 11%nat = Some xff)
  then Some (take 4 (drop 12 ip))
  else None.

(** [ip.To16()]: the 16-byte form, [None] for nil. *)
Definition To16 (ip : list byte) : option (list byte) :=
  match ip with
  | [a; b; c; d] => Some (IPv4 a b c d)
  | _ => if Nat.eqb (length ip) IPv6len then Some ip else None
  end.

Definition byteZ (b : byte) : Z := Z.of_N (Byte.to_N b).

Module TCPAddr.
Record t : Type := mk { IP : list byte; Port : Z; Zone : string }.
End TCPAddr.

(** The fields of [url.URL] that [Parse] fills and [String] reads. *)
Module URL.
Record t : Type := mk {
  Scheme : string;
  Opaque : string;
  User : option (string * option string);
  Host : string;
  Path : string;
  RawQuery : string;
  Fragment : string }.
(** The assignment [u.Host = h]. *)
Definition setHost (u : t) (h : string) : t :=
  mk (Scheme u) (Opaque u) (User u) h (Path u) (RawQuery u) (Fragment u).
End URL.

(** [net.Addr] as local.go uses it: only [String()] is called. *)
Module Addr.
Record t : Type := mk { Network : string; String_ : string }.
End Addr.

(** [ip.String()]: dotted decimal for an address with a 4-byte form; the
    text of any other address is left to [other]. *)
Definition IP_String (other : list byte -> string) (ip : list byte) : string :=
  if Nat.eqb (length ip) 0 then "<nil>"%string
  else match To4 ip with
       | Some [a; b; c; d] =>
           (fmt_d (byteZ a) ++ "." ++ fmt_d (byteZ b) ++ "."
            ++ fmt_d (byteZ c) ++ "." ++ fmt_d (byteZ d))%string
       | _ => other ip
       end.

(** [bytes.Compare]: lexicographic order, as -1, 0 or 1. *)
Fixpoint bytes_Compare (a b : list byte) : Z :=
  match a, b with
  | [], [] => 0
  | [], _ :: _ => -1
  | _ :: _, [] => 1
  | x :: a', y :: b' =>
      if byteZ x <? byteZ y then -1
      else if byteZ y <? byteZ x then 1
      else bytes_Compare a' b'
  end.

(** ** The interfaces the client is built from *)

Class AddressLister (A : Type) := {
  AllAddresses : A -> list string }.

Class RelayStatusProvider (R : Type) := {
  Relays : R -> list string;
  RelayStatus : R -> string -> Duration * bool }.

(** ** Events, clock readings and the state of the client *)

Inductive EventType : Type := DeviceDiscovered.

(** The payload logged with [DeviceDiscovered]. *)
Module Event.
Record t : Type := mk {
    kind : EventType;
    device : string;
    addrs : list string;
    relays : list Relay.t }.
End Event.

(** The readings of the clock while one packet is handled: by
    [time.Since] in [registerDevice], by [time.Now] for the new entry and
    by [time.Now] for the value sent on [forcedBcastTick]. *)
Module Clock.
Record t : Type := mk { since : Time; now : Time; forced : Time }.
End Clock.

(** What [b.Recv()] returns, with the clock readings of that iteration. *)
Module Packet.
Record t : Type := mk { buf : list byte; addr : Addr.t; clk : Clock.t }.
End Packet.

(** The state the receive loop works on: the cache, the events logged on
    [events.Default] and the values sent on [forcedBcastTick], oldest
    first. *)
Record state : Type := mkState {
  entries : cache;
  events_Default : list Event.t;
  forcedBcastTick : list Time }.

(** ** Stand-ins for the collaborators, used by the examples *)

Module Sample.
Definition idA : DeviceID := replicate 32 "A"%byte.
Definition idB : DeviceID := replicate 32 "B"%byte.

Definition relayA : Relay.t := Relay.mk "relay://198.51.100.7:22067" 12.

Definition deviceA : Device.t :=
  Device.mk idA ["tcp://0.0.0.0:22000"%string] [relayA].
Definition deviceB : Device.t :=
  Device.mk idB ["tcp://0.0.0.0:22000"%string] [].
Definition deviceZero : Device.t := Device.mk [] [] [].

(** A codec that knows four buffers: an announcement of [deviceA], the
    same cut short after the device (the reader reports [io.EOF]), a
    buffer with a wrong magic number, and an announcement of
    [deviceB]. *)
Definition UnmarshalXDR (buf : list byte) : Announce.t * option error :=
  match buf with
  | [x01] => (Announce.mk 0x9D79BC40 deviceA, None)
  | [x02] => (Announce.mk 0x9D79BC40 deviceA, Some io_EOF)
  | [x03] => (Announce.mk 0 deviceZero, Some ErrIncorrectMagic)
  | [x04] => (Announce.mk 0x9D79BC40 deviceB, None)
  | _ => (Announce.mk 0 deviceZero, Some (OtherError "unexpected EOF"))
  end.

(** Accepts [tcp://host:port] and nothing else. *)
Definition url_Parse (s : string) : option URL.t :=
  if String.prefix "tcp://" s
  then Some (URL.mk "tcp" "" None
               (String.substring 6 (String.length s - 6) s) "" "" "")
  else None.

Definition URL_String (u : URL.t) : string :=
  (URL.Scheme u ++ "://" ++ URL.Host u ++ URL.Path u)%string.

Definition net_ResolveTCPAddr (network addr : string) : option TCPAddr.t :=
  if String.eqb addr "0.0.0.0:22000" then
    Some (TCPAddr.mk [x00; x00; x00; x00] 22000 "")
  else if String.eqb addr ":22000" then Some (TCPAddr.mk [] 22000 "")
  else if String.eqb addr "192.0.2.9:22000" then
    Some (TCPAddr.mk [xc0; x00; x02; x09] 22000 "")
  else None.

(** Splits at the last colon. *)
Fixpoint net_SplitHostPort (s : string) : option (string * string) :=
  match s with
  | EmptyString => None
  | String c rest =>
      match net_SplitHostPort rest with
      | Some (host, port) => Some (String c host, port)
      | None => if Ascii.eqb c ":" then Some (EmptyString, rest) else None
      end
  end.

Definition IP_String_other (ip : list byte) : string := "?".

Definition DeviceID_String (id : DeviceID) : string := string_of_list_byte id.

Definition src : Addr.t := Addr.mk "udp" "192.0.2.5:54321".

Definition state0 : state := mkState ∅ [] [].

(** A relay status provider given by a table. *)
Definition relayTable := list (string * (Duration * bool)).

Fixpoint tableStatus (t : relayTable) (uri : string) : Duration * bool :=
  match t with
  | [] => (0, false)
  | (u, r) :: t' => if String.eqb u uri then r else tableStatus t' uri
  end.

#[global] Instance relayTable_provider : RelayStatusProvider relayTable :=
  {| Relays := fun t => map fst t; RelayStatus := tableStatus |}.

#[global] Instance list_lister : AddressLister (list string) :=
  {| AllAddresses := fun l => l |}.
End Sample.

(** ** The outgoing announcement *)

Section Announcement.
Context {A R : Type} `{AddressLister A} `{RelayStatusProvider R}.
Variable addrList : A.
Variable relayStat : R.
Variable myID : DeviceID.
Variable AnnouncementMagic : Z.

(** The loop over [c.relayStat.Relays()], [relays] being the slice
    built so far. *)
Fixpoint announcementPkt_relays (rs : list string) (relays : list Relay.t)
  : list Relay.t :=
  match rs with
  | [] => relays
  | relay :: rest =>
      let '(latency, ok) := RelayStatus relayStat relay in
      if ok : bool then
        announcementPkt_relays rest
          (relays ++ [Relay.mk relay (int32 (latency ÷ Millisecond))])
      else announcementPkt_relays rest relays
  end.

Definition announcementPkt : Announce.t :=
    let addrs := AllAddresses addrList in
    let relays := announcementPkt_relays (Relays relayStat) [] in
    Announce.mk AnnouncementMagic (Device.mk myID addrs relays).

(** The relay entry built from one configured relay, if any. *)
Definition relayEntry (relay : string) : option Relay.t :=
  if snd (RelayStatus relayStat relay)
  then Some (Relay.mk relay
               (int32 (fst (RelayStatus relayStat relay) ÷ Millisecond)))
  else None.

End Announcement.

(** ** The send loop *)

(** What wakes the send loop: the interval timer or a forced
    rebroadcast; the time carried by either is discarded. *)
Inductive Tick : Type :=
  | localBcastTick (t : Time)
  | forcedTick (t : Time).

Section Send.
Context {A R : Type} `{AddressLister A} `{RelayStatusProvider R}.
Variable MustMarshalXDR : Announce.t -> list byte.
Variable addrList : A.
Variable relayStat : R.
Variable myID : DeviceID.
Variable AnnouncementMagic : Z.

(** The loop of [sendLocalAnnouncements] on the ticks that arrive, [sent]
    being what [c.beacon.Send] has been given so far; when the ticks run
    out the loop is waiting in its [select]. *)
Fixpoint sendLocalAnnouncements_loop (msg : list byte) (ticks : list Tick)
  (sent : list (list byte)) : list (list byte) :=
  let sent := sent ++ [msg] in
  match ticks with
  | [] => sent
  | localBcastTick _ :: rest => sendLocalAnnouncements_loop msg rest sent
  | forcedTick _ :: rest => sendLocalAnnouncements_loop msg rest sent
  end.

Definition sendLocalAnnouncements (ticks : list Tick) : list (list byte) :=
  let pkt := announcementPkt addrList relayStat myID AnnouncementMagic in
  let msg := MustMarshalXDR pkt in
  sendLocalAnnouncements_loop msg ticks [].

End Send.

(** ** Construction *)

(** The two beacons [NewLocal] can start. *)
Inductive Beacon : Type :=
  | NewBroadcast (localPort : Z)
  | NewMulticast (localMCAddr : string).

(** The fields of [localClient] that [NewLocal] decides, with the cache
    it starts from. *)
Module localClient.
Record t : Type := mk {
  myID : DeviceID;
  name : string;
  beacon : Beacon;
  entries : cache }.
End localClient.

Section Construction.
(** [net.SplitHostPort] and [strconv.Atoi] with the error they return. *)
Variable net_SplitHostPort : string -> (string * string) + error.
Variable strconv_Atoi : string -> Z + error.

(** [NewLocal], as far as it decides the client it returns: the
    supervisor, the timers and the two loops it starts are left out, and
    [newCache()] is the empty map of the cache model. *)
Definition NewLocal (id : DeviceID) (addr : string) : localClient.t + error :=
  match net_SplitHostPort addr with
  | inr err => inr err
  | inl (host, port) =>
      if Nat.eqb (String.length host) 0 then
        match strconv_Atoi port with
        | inr err => inr err
        | inl bcPort =>
            inl (localClient.mk id "IPv4 local" (NewBroadcast bcPort) ∅)
        end
      else inl (localClient.mk id "IPv6 local" (NewMulticast addr) ∅)
  end.

(** The method [String]. *)
Definition localClient_String (c : localClient.t) : string :=
  localClient.name c.

End Construction.

(** ** The receive path and the address helpers *)

Section Client.
(** The collaborators outside local.go: the codec, the standard
    library's parsers and printers, and the text form of an
    identifier. *)
Variable UnmarshalXDR : list byte -> Announce.t * option error.
Variable url_Parse : string -> option URL.t.
Variable URL_String : URL.t -> string.
Variable net_ResolveTCPAddr : string -> string -> option TCPAddr.t.
Variable net_SplitHostPort : string -> option (string * string).
Variable IP_String_other : list byte -> string.
Variable DeviceID_String : DeviceID -> string.
Variable myID : DeviceID.

(** The loop over [device.Addresses] in [registerDevice], [valid]
    being [validAddresses] so far. *)
Fixpoint registerDevice_addrs (src : Addr.t) (addrs : list string)
  (valid : list string) : list string :=
  match addrs with
  | [] => valid
  | addr :: rest =>
      match url_Parse addr with
      | None => registerDevice_addrs src rest valid
      | Some u =>
          match net_ResolveTCPAddr "tcp" (URL.Host u) with
          | None => registerDevice_addrs src rest valid
          | Some tcpAddr =>
              if Nat.eqb (length (TCPAddr.IP tcpAddr)) 0
                 || IsUnspecified (TCPAddr.IP tcpAddr)
              then
                match net_SplitHostPort (Addr.String_ src) with
                | None => registerDevice_addrs src rest valid
                | Some (host, _) =>
                    let u := URL.setHost u
                      (host ++ ":" ++ fmt_d (TCPAddr.Port tcpAddr))%string in
                    registerDevice_addrs src rest (valid ++ [URL_String u])
                end
              else registerDevice_addrs src rest (valid ++ [addr])
          end
      end
  end.

Definition registerDevice (st : state) (clk : Clock.t) (src : Addr.t)
  (device : Device.t) : state * bool :=
  let id := copyID (Device.ID device) in
  let '(ce, existsAlready) := Get (entries st) id in
  let isNewDevice :=
    negb existsAlready
    || (CacheLifeTime <? time_Since (Clock.since clk) (CacheEntry.when ce)) in
  let validAddresses := registerDevice_addrs src (Device.Addresses device) [] in
  let entries' :=
    Set_ (entries st) id
      (CacheEntry.mk validAddresses (Device.Relays device) (Clock.now clk) true) in
  let events' :=
    if isNewDevice then
      events_Default st
      ++ [Event.mk DeviceDiscovered (DeviceID_String id)
            (Device.Addresses device) (Device.Relays device)]
    else events_Default st in
  (mkState entries' events' (forcedBcastTick st), isNewDevice).

(** The record [registerDevice] writes and the event it may log. *)
Definition registeredEntry (clk : Clock.t) (src : Addr.t) (device : Device.t)
  : CacheEntry.t :=
  CacheEntry.mk (registerDevice_addrs src (Device.Addresses device) [])
    (Device.Relays device) (Clock.now clk) true.

Definition discoveredEvent (device : Device.t) : Event.t :=
  Event.mk DeviceDiscovered (DeviceID_String (copyID (Device.ID device)))
    (Device.Addresses device) (Device.Relays device).

(** One iteration of the loop in [recvAnnouncements]. *)
Definition recvAnnouncement (st : state) (p : Packet.t) : state :=
  let '(pkt, err) := UnmarshalXDR (Packet.buf p) in
  if match err with
     | Some e => negb (error_eqb e io_EOF)
     | None => false
     end
  then st
  else
    let '(st, newDevice) :=
      if negb (bytes_Compare (Device.ID (Announce.This pkt)) myID =? 0)
      then registerDevice st (Packet.clk p) (Packet.addr p) (Announce.This pkt)
      else (st, false) in
    if newDevice then
      mkState (entries st) (events_Default st)
        (forcedBcastTick st ++ [Clock.forced (Packet.clk p)])
    else st.

(** The loop, run on the packets the beacon delivers, in order. *)
Definition recvAnnouncements (ps : list Packet.t) (st : state) : state :=
  fold_left recvAnnouncement ps st.

Definition addrToAddr (addr : TCPAddr.t) : string :=
  if Nat.eqb (length (TCPAddr.IP addr)) 0 || IsUnspecified (TCPAddr.IP addr)
  then (":" ++ fmt_c (TCPAddr.Port addr))%string
  else match To4 (TCPAddr.IP addr) with
       | Some bs =>
           (IP_String IP_String_other bs ++ ":" ++ fmt_c (TCPAddr.Port addr))%string
       | None =>
           match To16 (TCPAddr.IP addr) with
           | Some bs =>
               ("[" ++ IP_String IP_String_other bs ++ "]:"
                ++ fmt_c (TCPAddr.Port addr))%string
           | None => ""%string
           end
       end.

(** The loop of [resolveAddrs], [raddrs] being the slice so far. *)
Fixpoint resolveAddrs_loop (addrs : list string) (raddrs : list string)
  : list string :=
  match addrs with
  | [] => raddrs
  | addrStr :: rest =>
      match url_Parse addrStr with
      | None => resolveAddrs_loop rest raddrs
      | Some uri =>
          match net_ResolveTCPAddr "tcp" (URL.Host uri) with
          | None => resolveAddrs_loop rest raddrs
          | Some addrRes =>
              let addr := addrToAddr addrRes in
              if Nat.ltb 0 (String.length addr) then
                resolveAddrs_loop rest
                  (raddrs ++ [URL_String (URL.setHost uri addr)])
              else resolveAddrs_loop rest raddrs
          end
      end
  end.

Definition resolveAddrs (addrs : list string) : list string :=
  resolveAddrs_loop addrs [].

(** * Properties of the receive path *)

(** ** Time and the cache lifetime *)

Lemma CacheLifeTime_value : CacheLifeTime = 90000000000.
Proof. reflexivity. Qed.

Lemma Duration_bounds :
  minDuration = -9223372036854775808 /\ maxDuration = 9223372036854775807.
Proof. split; reflexivity. Qed.

Ltac case_ltb :=
  match goal with
  | |- context [?a <? ?b] => destruct (Z.ltb_spec a b)
  end.

Lemma time_Since_lt_lifetime (now t : Time) :
  (time_Since now t <? CacheLifeTime) = (now - t <? CacheLifeTime).
Proof.
  unfold time_Since, time_Sub. rewrite CacheLifeTime_value.
  destruct Duration_bounds as [-> ->].
  destruct (Z.ltb_spec (now - t) (-9223372036854775808));
    [| destruct (Z.ltb_spec 9223372036854775807 (now - t))];
    repeat case_ltb; try reflexivity; lia.
Qed.

Lemma time_Since_gt_lifetime (now t : Time) :
  (CacheLifeTime <? time_Since now t) = (CacheLifeTime <? now - t).
Proof.
  unfold time_Since, time_Sub. rewrite CacheLifeTime_value.
  destruct Duration_bounds as [-> ->].
  destruct (Z.ltb_spec (now - t) (-9223372036854775808));
    [| destruct (Z.ltb_spec 9223372036854775807 (now - t))];
    repeat case_ltb; try reflexivity; lia.
Qed.

(** ** Identifiers *)

Lemma byteZ_inj (x y : byte) : byteZ x = byteZ y -> x = y.
Proof.
  unfold byteZ. intros E. apply N2Z.inj in E.
  assert (S : Some x = Some y).
  { rewrite <- (Byte.of_to_N x), <- (Byte.of_to_N y). now rewrite E. }
  now inversion S.
Qed.

Lemma bytes_Compare_eq (a b : list byte) : bytes_Compare a b = 0 <-> a = b.
Proof.
  revert b. induction a as [|x a IH]; intros [|y b]; simpl; try easy.
  destruct (Z.ltb_spec (byteZ x) (byteZ y)) as [Hxy|Hxy].
  { split; [lia | intros E; injection E as -> _; lia]. }
  destruct (Z.ltb_spec (byteZ y) (byteZ x)) as [Hyx|Hyx].
  { split; [lia | intros E; injection E as -> _; lia]. }
  rewrite IH. assert (x = y) by (apply byteZ_inj; lia). subst.
  split; [now intros -> | intros E; now injection E].
Qed.

Lemma copyID_length (bs : list byte) : length (copyID bs) = DeviceIDLength.
Proof.
  unfold copyID. rewrite length_app, length_take, length_replicate. lia.
Qed.

Lemma copyID_short (bs : list byte) :
  (length bs <= DeviceIDLength)%nat ->
  copyID bs = bs ++ replicate (DeviceIDLength - length bs) x00.
Proof. intros Hl. unfold copyID. now rewrite take_ge by lia. Qed.

Lemma copyID_long (bs : list byte) :
  (DeviceIDLength <= length bs)%nat -> copyID bs = take DeviceIDLength bs.
Proof.
  intros Hl. unfold copyID.
  replace (DeviceIDLength - length bs)%nat with 0%nat by lia.
  simpl. apply app_nil_r.
Qed.
(** ** Lookup *)

Lemma Lookup_hit (c : cache) (now : Time) (id : DeviceID) (ce : CacheEntry.t) :
  c !! id = Some ce ->
  Lookup c now id =
    if now - CacheEntry.when ce <? CacheLifeTime
    then (CacheEntry.Direct ce, CacheEntry.Relays ce, None)
    else ([], [], None).
Proof.
  intros Hc. unfold Lookup, Get. rewrite Hc.
  now rewrite time_Since_lt_lifetime.
Qed.

Lemma Lookup_miss (c : cache) (now : Time) (id : DeviceID) :
  c !! id = None -> Lookup c now id = ([], [], None).
Proof. intros Hc. unfold Lookup, Get. now rewrite Hc. Qed.

(** C4: a record written at time [T] is returned by [Lookup] at every
    time strictly before [T + CacheLifeTime]; from [T + CacheLifeTime] on,
    and for an identifier that was never written, [Lookup] returns empty
    direct addresses and empty relays. *)
Theorem Lookup_freshness (c : cache) (id : DeviceID) (ce : CacheEntry.t)
  (T now : Time) :
  c !! id = Some ce ->
  CacheEntry.when ce = T ->
  (now < T + CacheLifeTime ->
     Lookup c now id = (CacheEntry.Direct ce, CacheEntry.Relays ce, None))
  /\ (T + CacheLifeTime <= now -> Lookup c now id = ([], [], None))
  /\ (forall id', c !! id' = None -> Lookup c now id' = ([], [], None)).
Proof.
  intros Hc <-. rewrite (Lookup_hit _ _ _ _ Hc). repeat split.
  - intros Hlt. destruct (Z.ltb_spec (now - CacheEntry.when ce) CacheLifeTime);
      [reflexivity | lia].
  - intros Hge. destruct (Z.ltb_spec (now - CacheEntry.when ce) CacheLifeTime);
      [lia | reflexivity].
  - intros id'. apply Lookup_miss.
Qed.

(** C9: the error result of [Lookup] is nil for every identifier, every
    state of the cache and every time; a missing or stale record shows
    only as empty lists. *)
Theorem Lookup_error_nil (c : cache) (now : Time) (id : DeviceID) :
  snd (Lookup c now id) = None.
Proof.
  unfold Lookup. destruct (Get c id) as [ce [|]]; [|reflexivity].
  now destruct (_ <? _).
Qed.

(** ** Registration *)

Lemma registerDevice_addrs_acc (src : Addr.t) (addrs valid : list string) :
  registerDevice_addrs src addrs valid
  = valid ++ registerDevice_addrs src addrs [].
Proof.
  revert valid. induction addrs as [|addr rest IH]; intros valid; simpl.
  - now rewrite app_nil_r.
  - destruct (url_Parse addr) as [u|]; [|apply IH].
    destruct (net_ResolveTCPAddr "tcp" (URL.Host u)) as [tcpAddr|]; [|apply IH].
    destruct (_ || _).
    + destruct (net_SplitHostPort (Addr.String_ src)) as [[host port]|];
        [|apply IH].
      rewrite IH, (IH [_]). now rewrite app_assoc.
    + rewrite IH, (IH [_]). now rewrite app_assoc.
Qed.

Lemma registerDevice_addrs_cons (src : Addr.t) (addr : string)
  (rest : list string) :
  registerDevice_addrs src (addr :: rest) []
  = registerDevice_addrs src [addr] [] ++ registerDevice_addrs src rest [].
Proof.
  simpl.
  destruct (url_Parse addr) as [u|]; [|reflexivity].
  destruct (net_ResolveTCPAddr "tcp" (URL.Host u)) as [tcpAddr|]; [|reflexivity].
  destruct (_ || _).
  - destruct (net_SplitHostPort (Addr.String_ src)) as [[host port]|];
      [|reflexivity].
    apply registerDevice_addrs_acc.
  - apply registerDevice_addrs_acc.
Qed.

(** What one call of [registerDevice] does, with the cache read made
    explicit. *)
Lemma registerDevice_spec (st : state) (clk : Clock.t) (src : Addr.t)
  (device : Device.t) :
  let id := copyID (Device.ID device) in
  let isNewDevice :=
    match entries st !! id with
    | None => true
    | Some ce => CacheLifeTime <? Clock.since clk - CacheEntry.when ce
    end in
  registerDevice st clk src device
  = (mkState (<[id := registeredEntry clk src device]> (entries st))
       (if isNewDevice then events_Default st ++ [discoveredEvent device]
        else events_Default st)
       (forcedBcastTick st),
     isNewDevice).
Proof.
  unfold registerDevice, Get, Set_, registeredEntry, discoveredEvent.
  destruct (entries st !! copyID (Device.ID device)) as [ce|]; simpl.
  - now rewrite time_Since_gt_lifetime.
  - reflexivity.
Qed.

(** C3: the staleness test of [registerDevice] at the boundary. A peer
    whose record is exactly [CacheLifeTime] old is not reported as new,
    although [Lookup] at that same instant no longer returns the record. *)
Theorem registerDevice_age_equal_lifetime (c : cache) (evs : list Event.t)
  (ticks : list Time) (src : Addr.t) (device : Device.t) (ce : CacheEntry.t)
  (tNow tForced : Time) :
  let id := copyID (Device.ID device) in
  let st := mkState (<[id := ce]> c) evs ticks in
  let clk := Clock.mk (CacheEntry.when ce + CacheLifeTime) tNow tForced in
  snd (registerDevice st clk src device) = false
  /\ events_Default (fst (registerDevice st clk src device)) = evs
  /\ Lookup (entries st) (Clock.since clk) id = ([], [], None).
Proof.
  intros id st clk. rewrite registerDevice_spec. simpl.
  fold id. rewrite lookup_insert_eq. simpl.
  assert (E : (CacheLifeTime <? CacheEntry.when ce + CacheLifeTime - CacheEntry.when ce) = false).
  { apply Z.ltb_ge. lia. }
  rewrite E. repeat split.
  rewrite (Lookup_hit _ _ _ ce) by apply lookup_insert_eq.
  destruct (Z.ltb_spec (CacheEntry.when ce + CacheLifeTime - CacheEntry.when ce)
              CacheLifeTime); [lia | reflexivity].
Qed.

Lemma registerDevice_entry (st : state) (clk : Clock.t) (src : Addr.t)
  (device : Device.t) :
  entries (fst (registerDevice st clk src device))
  = <[copyID (Device.ID device) := registeredEntry clk src device]> (entries st).
Proof. now rewrite registerDevice_spec. Qed.

(** C5: how the announced addresses are registered. Each address is
    handled on its own and the rest of the packet is still processed; an
    address that does not parse or does not resolve is dropped; an
    address whose IP is empty or unspecified gets the host of the
    packet's source address and keeps its port; an address with a
    specific IP is registered as announced. The list so built is the
    [Direct] field of the record written for the peer. *)
Theorem registerDevice_address_fallback (src : Addr.t) (addr : string)
  (rest : list string) :
  registerDevice_addrs src (addr :: rest) []
    = registerDevice_addrs src [addr] [] ++ registerDevice_addrs src rest []
  /\ (url_Parse addr = None -> registerDevice_addrs src [addr] [] = [])
  /\ (forall u, url_Parse addr = Some u ->
       net_ResolveTCPAddr "tcp" (URL.Host u) = None ->
       registerDevice_addrs src [addr] [] = [])
  /\ (forall u tcpAddr host port,
       url_Parse addr = Some u ->
       net_ResolveTCPAddr "tcp" (URL.Host u) = Some tcpAddr ->
       length (TCPAddr.IP tcpAddr) = 0%nat
         \/ IsUnspecified (TCPAddr.IP tcpAddr) = true ->
       net_SplitHostPort (Addr.String_ src) = Some (host, port) ->
       registerDevice_addrs src [addr] []
       = [URL_String
            (URL.setHost u (host ++ ":" ++ fmt_d (TCPAddr.Port tcpAddr))%string)])
  /\ (forall u tcpAddr,
       url_Parse addr = Some u ->
       net_ResolveTCPAddr "tcp" (URL.Host u) = Some tcpAddr ->
       length (TCPAddr.IP tcpAddr) <> 0%nat ->
       IsUnspecified (TCPAddr.IP tcpAddr) = false ->
       registerDevice_addrs src [addr] [] = [addr])
  /\ (forall st clk device,
       CacheEntry.Direct
         <$> entries (fst (registerDevice st clk src device))
             !! copyID (Device.ID device)
       = Some (registerDevice_addrs src (Device.Addresses device) [])).
Proof.
  split; [apply registerDevice_addrs_cons|].
  split; [intros Hp; simpl; now rewrite Hp|].
  split; [intros u Hp Hr; simpl; now rewrite Hp, Hr|].
  split; [|split].
  - intros u tcpAddr host port Hp Hr Hip Hs. simpl. rewrite Hp, Hr, Hs.
    destruct Hip as [Hlen|Hun].
    + now rewrite Hlen.
    + rewrite Hun. now rewrite orb_true_r.
  - intros u tcpAddr Hp Hr Hlen Hun. simpl. rewrite Hp, Hr, Hun.
    destruct (Nat.eqb_spec (length (TCPAddr.IP tcpAddr)) 0); [contradiction|].
    reflexivity.
  - intros st clk device. rewrite registerDevice_entry, lookup_insert_eq.
    reflexivity.
Qed.

Lemma copyID_lookup_lt (bs : list byte) (i : nat) :
  (i < DeviceIDLength)%nat -> (i < length bs)%nat -> copyID bs !! i = bs !! i.
Proof.
  intros Hi Hl. unfold copyID.
  rewrite lookup_app_l by (rewrite length_take; lia).
  now apply lookup_take_lt.
Qed.

Lemma copyID_lookup_ge (bs : list byte) (i : nat) :
  (i < DeviceIDLength)%nat -> (length bs <= i)%nat -> copyID bs !! i = Some x00.
Proof.
  intros Hi Hl. unfold copyID.
  rewrite lookup_app_r by (rewrite length_take; lia).
  apply lookup_replicate. split; [reflexivity|]. rewrite length_take. lia.
Qed.

(** The byte at [i] of an identifier field, zero beyond its end. *)
Lemma copyID_lookup (bs : list byte) (i : nat) :
  (i < DeviceIDLength)%nat -> copyID bs !! i = Some (default x00 (bs !! i)).
Proof.
  intros Hi. destruct (Nat.lt_ge_cases i (length bs)) as [Hl|Hl].
  - rewrite copyID_lookup_lt by assumption.
    destruct (lookup_lt_is_Some_2 bs i Hl) as [b Hb]. now rewrite Hb.
  - rewrite copyID_lookup_ge by assumption.
    now rewrite (lookup_ge_None_2 bs i Hl).
Qed.

Lemma copyID_ext (a b : list byte) :
  (forall i, (i < DeviceIDLength)%nat ->
     default x00 (a !! i) = default x00 (b !! i)) ->
  copyID a = copyID b.
Proof.
  intros Hab. apply list_eq. intros i.
  destruct (Nat.lt_ge_cases i DeviceIDLength) as [Hi|Hi].
  - rewrite !copyID_lookup by assumption. now rewrite Hab.
  - rewrite !lookup_ge_None_2; [reflexivity | |]; now rewrite copyID_length.
Qed.

(** C10: [registerDevice] coerces the announced identifier to 32 bytes by
    copying: a shorter field is zero-filled, the bytes of a longer field
    beyond the 32nd are ignored; the record is written under the coerced
    identifier and a discovery event names it; two announcements whose
    identifier fields agree on the first 32 bytes, a missing byte
    counting as zero, are cached and reported under the same
    identifier. *)
Theorem registerDevice_coerces_identifier (st : state) (clk : Clock.t)
  (src : Addr.t) (device : Device.t) :
  let id := copyID (Device.ID device) in
  let st' := fst (registerDevice st clk src device) in
  length id = DeviceIDLength
  /\ ((length (Device.ID device) <= DeviceIDLength)%nat ->
      id = Device.ID device
           ++ replicate (DeviceIDLength - length (Device.ID device)) x00)
  /\ ((DeviceIDLength <= length (Device.ID device))%nat ->
      id = take DeviceIDLength (Device.ID device))
  /\ entries st' = <[id := registeredEntry clk src device]> (entries st)
  /\ (snd (registerDevice st clk src device) = true ->
      events_Default st'
      = events_Default st
        ++ [Event.mk DeviceDiscovered (DeviceID_String id)
              (Device.Addresses device) (Device.Relays device)])
  /\ (forall device' clk' src',
      (forall i, (i < DeviceIDLength)%nat ->
         default x00 (Device.ID device' !! i)
         = default x00 (Device.ID device !! i)) ->
      copyID (Device.ID device') = id
      /\ entries (fst (registerDevice st' clk' src' device'))
         = <[id := registeredEntry clk' src' device']> (entries st)
      /\ Event.device (discoveredEvent device') = DeviceID_String id).
Proof.
  intros id st'. subst id st'.
  split; [apply copyID_length|].
  split; [apply copyID_short|].
  split; [apply copyID_long|].
  split; [apply registerDevice_entry|].
  split.
  - rewrite registerDevice_spec. simpl. now intros ->.
  - intros device' clk' src' Hsame.
    pose proof (copyID_ext _ _ Hsame) as E.
    split; [exact E|]. split.
    + rewrite !registerDevice_entry, E. apply insert_insert_eq.
    + unfold discoveredEvent. simpl. now rewrite E.
Qed.

(** ** The receive loop *)

Lemma error_eqb_eq (a b : error) : error_eqb a b = true <-> a = b.
Proof.
  destruct a, b; simpl; try (split; [discriminate | congruence]);
    try (split; reflexivity).
  rewrite String.eqb_eq. split; congruence.
Qed.

(** A packet whose decoding fails with anything but [io.EOF] is skipped. *)
Lemma recvAnnouncement_dropped (st : state) (p : Packet.t) (e : error) :
  snd (UnmarshalXDR (Packet.buf p)) = Some e -> e <> io_EOF ->
  recvAnnouncement st p = st.
Proof.
  intros He Hne. unfold recvAnnouncement.
  destruct (UnmarshalXDR (Packet.buf p)) as [pkt err]. simpl in He. subst err.
  destruct (error_eqb e io_EOF) eqn:E; [|reflexivity].
  apply error_eqb_eq in E. contradiction.
Qed.

(** A packet that is not skipped and does not carry the client's own
    identifier is registered, and a new device is followed by one send on
    [forcedBcastTick]. *)
Lemma recvAnnouncement_accepted (st : state) (p : Packet.t) (pkt : Announce.t)
  (err : option error) :
  UnmarshalXDR (Packet.buf p) = (pkt, err) ->
  err = None \/ err = Some io_EOF ->
  Device.ID (Announce.This pkt) <> myID ->
  recvAnnouncement st p
  = let r := registerDevice st (Packet.clk p) (Packet.addr p) (Announce.This pkt) in
    if snd r then
      mkState (entries (fst r)) (events_Default (fst r))
        (forcedBcastTick (fst r) ++ [Clock.forced (Packet.clk p)])
    else fst r.
Proof.
  intros Hd Herr Hid. unfold recvAnnouncement. rewrite Hd.
  assert (Hskip : match err with
                  | Some e => negb (error_eqb e io_EOF)
                  | None => false
                  end = false) by (destruct Herr as [-> | ->]; reflexivity).
  rewrite Hskip.
  destruct (Z.eqb_spec (bytes_Compare (Device.ID (Announce.This pkt)) myID) 0)
    as [E|E]; [apply bytes_Compare_eq in E; contradiction|].
  simpl. now destruct (registerDevice _ _ _ _) as [st1 [|]].
Qed.

(** C1: a packet whose decoding fails with an error other than [io.EOF]
    leaves the cache, the published events and the forced-rebroadcast
    signals as they were, and the loop goes on with the packets that
    follow as if it had not been received. *)
Theorem recvAnnouncement_decode_failure (st : state) (p : Packet.t)
  (ps : list Packet.t) (e : error) :
  snd (UnmarshalXDR (Packet.buf p)) = Some e ->
  e <> io_EOF ->
  entries (recvAnnouncement st p) = entries st
  /\ events_Default (recvAnnouncement st p) = events_Default st
  /\ forcedBcastTick (recvAnnouncement st p) = forcedBcastTick st
  /\ recvAnnouncements (p :: ps) st = recvAnnouncements ps st.
Proof.
  intros He Hne. unfold recvAnnouncements. simpl.
  now rewrite (recvAnnouncement_dropped st p e He Hne).
Qed.

Lemma recvAnnouncement_self (st : state) (p : Packet.t) :
  Device.ID (Announce.This (fst (UnmarshalXDR (Packet.buf p)))) = myID ->
  recvAnnouncement st p = st.
Proof.
  intros Hid. unfold recvAnnouncement.
  destruct (UnmarshalXDR (Packet.buf p)) as [pkt err]. simpl in Hid.
  destruct (match err with
            | Some e => negb (error_eqb e io_EOF)
            | None => false
            end); [reflexivity|].
  apply bytes_Compare_eq in Hid. rewrite Hid. reflexivity.
Qed.

(** C6: a received announcement whose sender identifier is byte for byte
    the client's own changes nothing, in whatever state it arrives: no
    cache entry is created or updated, no event is published and nothing
    is sent on [forcedBcastTick]; the same holds for any run of such
    packets. *)
Theorem recvAnnouncement_self_ignored (st : state) (p : Packet.t)
  (ps : list Packet.t) :
  let self q :=
    Device.ID (Announce.This (fst (UnmarshalXDR (Packet.buf q)))) = myID in
  (self p ->
     entries (recvAnnouncement st p) = entries st
     /\ events_Default (recvAnnouncement st p) = events_Default st
     /\ forcedBcastTick (recvAnnouncement st p) = forcedBcastTick st)
  /\ (Forall self ps -> recvAnnouncements ps st = st).
Proof.
  intros self. split.
  - intros Hp. now rewrite (recvAnnouncement_self st p Hp).
  - intros Hps. revert st. unfold recvAnnouncements.
    induction Hps as [|q qs Hq _ IH]; intros st; simpl; [reflexivity|].
    rewrite (recvAnnouncement_self st q Hq). apply IH.
Qed.

(** C7: the first valid announcement received for a peer [X] other than
    the client itself, the cache holding nothing for [X], publishes
    exactly one discovery event and sends exactly one forced-rebroadcast
    signal; a later valid announcement for [X] that arrives while the
    record written by the first is less than [CacheLifeTime] old
    publishes nothing and sends nothing; both overwrite the record of [X]
    with the normalized addresses, the announced relays and the time of
    processing. *)
Theorem recvAnnouncement_newly_discovered (st : state) (p1 p2 : Packet.t)
  (pkt1 pkt2 : Announce.t) :
  UnmarshalXDR (Packet.buf p1) = (pkt1, None) ->
  UnmarshalXDR (Packet.buf p2) = (pkt2, None) ->
  Device.ID (Announce.This pkt1) <> myID ->
  Device.ID (Announce.This pkt2) <> myID ->
  copyID (Device.ID (Announce.This pkt2))
    = copyID (Device.ID (Announce.This pkt1)) ->
  entries st !! copyID (Device.ID (Announce.This pkt1)) = None ->
  Clock.since (Packet.clk p2) - Clock.now (Packet.clk p1) < CacheLifeTime ->
  let X := copyID (Device.ID (Announce.This pkt1)) in
  let first :=
    registeredEntry (Packet.clk p1) (Packet.addr p1) (Announce.This pkt1) in
  let second :=
    registeredEntry (Packet.clk p2) (Packet.addr p2) (Announce.This pkt2) in
  recvAnnouncement st p1
    = mkState (<[X := first]> (entries st))
        (events_Default st ++ [discoveredEvent (Announce.This pkt1)])
        (forcedBcastTick st ++ [Clock.forced (Packet.clk p1)])
  /\ (forall st1, entries st1 !! X = Some first ->
       recvAnnouncement st1 p2
       = mkState (<[X := second]> (entries st1)) (events_Default st1)
           (forcedBcastTick st1))
  /\ recvAnnouncements [p1; p2] st
     = mkState (<[X := second]> (entries st))
         (events_Default st ++ [discoveredEvent (Announce.This pkt1)])
         (forcedBcastTick st ++ [Clock.forced (Packet.clk p1)]).
Proof.
  intros Hd1 Hd2 Hid1 Hid2 Hsame Hnone Hage X first second.
  fold X in Hsame, Hnone.
  assert (H1 : recvAnnouncement st p1
    = mkState (<[X := first]> (entries st))
        (events_Default st ++ [discoveredEvent (Announce.This pkt1)])
        (forcedBcastTick st ++ [Clock.forced (Packet.clk p1)])).
  { rewrite (recvAnnouncement_accepted st p1 pkt1 None Hd1 (or_introl eq_refl) Hid1).
    rewrite registerDevice_spec. simpl. fold X. now rewrite Hnone. }
  assert (H2 : forall st1, entries st1 !! X = Some first ->
       recvAnnouncement st1 p2
       = mkState (<[X := second]> (entries st1)) (events_Default st1)
           (forcedBcastTick st1)).
  { intros st1 Hx.
    rewrite (recvAnnouncement_accepted st1 p2 pkt2 None Hd2 (or_introl eq_refl) Hid2).
    rewrite registerDevice_spec. simpl. rewrite Hsame, Hx.
    simpl.
    destruct (Z.ltb_spec CacheLifeTime
                (Clock.since (Packet.clk p2) - Clock.now (Packet.clk p1)));
      [lia | reflexivity]. }
  split; [exact H1|]. split; [exact H2|].
  unfold recvAnnouncements. simpl. rewrite H1, H2 by apply lookup_insert_eq.
  simpl. now rewrite insert_insert_eq.
Qed.

(** One iteration either leaves the cache alone or writes the record of
    one device; no entry is ever removed. *)
Lemma recvAnnouncement_entries (st : state) (p : Packet.t) :
  entries (recvAnnouncement st p) = entries st
  \/ exists device,
       entries (recvAnnouncement st p)
       = <[copyID (Device.ID device) :=
             registeredEntry (Packet.clk p) (Packet.addr p) device]> (entries st).
Proof.
  unfold recvAnnouncement.
  destruct (UnmarshalXDR (Packet.buf p)) as [pkt err].
  destruct (match err with
            | Some e => negb (error_eqb e io_EOF)
            | None => false
            end); [now left|].
  destruct (negb _); [|now left].
  right. exists (Announce.This pkt).
  rewrite <- registerDevice_entry.
  now destruct (registerDevice _ _ _ _) as [st1 [|]].
Qed.

Lemma recvAnnouncement_other_peer (st : state) (p : Packet.t) (id : DeviceID) :
  id <> copyID (Device.ID (Announce.This (fst (UnmarshalXDR (Packet.buf p))))) ->
  entries (recvAnnouncement st p) !! id = entries st !! id.
Proof.
  intros Hid. unfold recvAnnouncement.
  destruct (UnmarshalXDR (Packet.buf p)) as [pkt err]. simpl in Hid.
  destruct (match err with
            | Some e => negb (error_eqb e io_EOF)
            | None => false
            end); [reflexivity|].
  destruct (negb _); [|reflexivity].
  assert (E : entries (fst (registerDevice st (Packet.clk p) (Packet.addr p)
                              (Announce.This pkt))) !! id = entries st !! id).
  { rewrite registerDevice_entry. now apply lookup_insert_ne. }
  now destruct (registerDevice _ _ _ _) as [st1 [|]].
Qed.

Lemma recvAnnouncements_keep_entries (ps : list Packet.t) (st : state)
  (id : DeviceID) :
  is_Some (entries st !! id) ->
  is_Some (entries (recvAnnouncements ps st) !! id).
Proof.
  revert st. unfold recvAnnouncements.
  induction ps as [|p ps IH]; intros st Hst; simpl; [exact Hst|].
  apply IH.
  destruct (recvAnnouncement_entries st p) as [-> | [device ->]]; [exact Hst|].
  rewrite lookup_insert. destruct (decide _); [eauto | exact Hst].
Qed.

(** ** Canonical addresses *)

(** The three UTF-8 bytes of the character U+55F0, which is what [%c]
    prints for the port 22000. *)
Example fmt_c_22000 : fmt_c 22000 = str ["229"%char; "151"%char; "176"%char].
Proof. reflexivity. Qed.

Example fmt_d_22000 : fmt_d 22000 = "22000"%string.
Proof. reflexivity. Qed.

(** No port number is printed by [%c] the way [%d] prints it; the ports
    are enumerated as [256 * hi + lo]. *)
Lemma ports_differ :
  forallb
    (fun hi =>
       forallb
         (fun lo =>
            negb (String.eqb (fmt_c (256 * Z.of_nat hi + Z.of_nat lo))
                    (fmt_d (256 * Z.of_nat hi + Z.of_nat lo))))
         (seq 0 256))
    (seq 0 256) = true.
Proof. vm_compute. reflexivity. Qed.

Lemma fmt_c_not_decimal (port : Z) :
  0 <= port <= 65535 -> fmt_c port <> fmt_d port.
Proof.
  intros Hp.
  assert (Hhi : In (Z.to_nat (port / 256)) (seq 0 256)).
  { apply in_seq.
    assert (port / 256 < 256) by (apply Z.div_lt_upper_bound; lia).
    assert (0 <= port / 256) by (apply Z.div_pos; lia). lia. }
  assert (Hlo : In (Z.to_nat (port mod 256)) (seq 0 256)).
  { apply in_seq. pose proof (Z.mod_pos_bound port 256). lia. }
  pose proof (proj1 (forallb_forall _ _) ports_differ _ Hhi) as Hrow.
  pose proof (proj1 (forallb_forall _ _) Hrow _ Hlo) as Hport.
  cbv beta in Hport.
  rewrite !Z2Nat.id in Hport
    by (try apply Z.div_pos; try apply Z.mod_pos_bound; lia).
  rewrite <- Z.div_mod in Hport by lia.
  intros E. rewrite E, String.eqb_refl in Hport. discriminate.
Qed.

(** C2: [addrToAddr] at the address 192.0.2.5, port 22000, and at the
    same port with no IP. The host part and the punctuation are as the
    canonical form wants them, but the port is printed with [%c], as the
    character with that code point, where the decimal 22000 is called
    for. *)
Theorem addrToAddr_port_as_character :
  addrToAddr (TCPAddr.mk [xc0; x00; x02; x05] 22000 "")
    = ("192.0.2.5:" ++ str ["229"%char; "151"%char; "176"%char])%string
  /\ addrToAddr (TCPAddr.mk [xc0; x00; x02; x05] 22000 "")
     <> "192.0.2.5:22000"%string
  /\ addrToAddr (TCPAddr.mk [] 22000 "")
     = (":" ++ str ["229"%char; "151"%char; "176"%char])%string
  /\ addrToAddr (TCPAddr.mk [] 22000 "") <> ":22000"%string
  /\ addrToAddr (TCPAddr.mk [x01; x02; x03; x04; x05] 22000 "") = ""%string.
Proof.
  repeat split; try reflexivity; vm_compute; discriminate.
Qed.

(** With no IP, or an unspecified one, no TCP port at all comes out in
    decimal. *)
Lemma addrToAddr_unspecified_not_decimal (addr : TCPAddr.t) :
  length (TCPAddr.IP addr) = 0%nat \/ IsUnspecified (TCPAddr.IP addr) = true ->
  0 <= TCPAddr.Port addr <= 65535 ->
  addrToAddr addr <> (":" ++ fmt_d (TCPAddr.Port addr))%string.
Proof.
  intros Hip Hport. unfold addrToAddr.
  assert (E : Nat.eqb (length (TCPAddr.IP addr)) 0
              || IsUnspecified (TCPAddr.IP addr) = true).
  { destruct Hip as [-> | ->]; [reflexivity | apply orb_true_r]. }
  rewrite E. simpl. intros Heq. injection Heq as Heq.
  now apply (fmt_c_not_decimal _ Hport).
Qed.

(** ** Further properties of the address helpers *)

Lemma resolveAddrs_loop_acc (addrs raddrs : list string) :
  resolveAddrs_loop addrs raddrs = raddrs ++ resolveAddrs_loop addrs [].
Proof.
  revert raddrs. induction addrs as [|addrStr rest IH]; intros raddrs; simpl.
  - now rewrite app_nil_r.
  - destruct (url_Parse addrStr) as [uri|]; [|apply IH].
    destruct (net_ResolveTCPAddr "tcp" (URL.Host uri)) as [addrRes|]; [|apply IH].
    destruct (Nat.ltb 0 _); [|apply IH].
    rewrite IH, (IH [_]). now rewrite app_assoc.
Qed.

Lemma resolveAddrs_cons (addrStr : string) (rest : list string) :
  resolveAddrs (addrStr :: rest) = resolveAddrs [addrStr] ++ resolveAddrs rest.
Proof.
  unfold resolveAddrs. simpl.
  destruct (url_Parse addrStr) as [uri|]; [|reflexivity].
  destruct (net_ResolveTCPAddr "tcp" (URL.Host uri)) as [addrRes|]; [|reflexivity].
  destruct (Nat.ltb 0 _); [|reflexivity].
  apply resolveAddrs_loop_acc.
Qed.

Lemma resolveAddrs_single_length (addrStr : string) :
  (length (resolveAddrs [addrStr]) <= 1)%nat.
Proof.
  unfold resolveAddrs. simpl.
  destruct (url_Parse addrStr) as [uri|]; [|simpl; lia].
  destruct (net_ResolveTCPAddr "tcp" (URL.Host uri)) as [addrRes|]; [|simpl; lia].
  destruct (Nat.ltb 0 _); simpl; lia.
Qed.

(** X1: [resolveAddrs] works address by address: the result for two lists
    one after the other is the two results one after the other, and it
    never has more addresses than it was given. *)
Theorem resolveAddrs_app (addrs1 addrs2 : list string) :
  resolveAddrs (addrs1 ++ addrs2) = resolveAddrs addrs1 ++ resolveAddrs addrs2
  /\ (length (resolveAddrs addrs1) <= length addrs1)%nat.
Proof.
  split.
  - induction addrs1 as [|a rest IH]; [reflexivity|].
    rewrite <- app_comm_cons, resolveAddrs_cons, IH, (resolveAddrs_cons a rest).
    now rewrite app_assoc.
  - induction addrs1 as [|a rest IH]; [simpl; lia|].
    rewrite resolveAddrs_cons, length_app. simpl.
    pose proof (resolveAddrs_single_length a). lia.
Qed.

Lemma IP_Equal_16_length (ip x : list byte) :
  length x = IPv6len -> IP_Equal ip x = true ->
  length ip = IPv4len \/ length ip = IPv6len.
Proof.
  intros Hx. unfold IP_Equal. rewrite Hx.
  destruct (Nat.eqb_spec (length ip) IPv6len) as [E|E]; [now right|].
  destruct (Nat.eqb_spec (length ip) IPv4len) as [E4|E4]; [now left|].
  simpl. discriminate.
Qed.

Lemma IsUnspecified_length (ip : list byte) :
  IsUnspecified ip = true -> length ip = IPv4len \/ length ip = IPv6len.
Proof.
  unfold IsUnspecified. intros H. apply orb_true_iff in H.
  destruct H as [H|H]; revert H; now apply IP_Equal_16_length.
Qed.

Lemma To16_not4 (ip : list byte) :
  length ip <> IPv4len ->
  To16 ip = if Nat.eqb (length ip) IPv6len then Some ip else None.
Proof.
  intros H4. destruct ip as [|a [|b [|c [|d [|e l]]]]]; try reflexivity.
  exfalso. apply H4. reflexivity.
Qed.

Lemma append_colon_nonempty (a b : string) : (a ++ ":" ++ b)%string <> ""%string.
Proof. destruct a; discriminate. Qed.

Lemma addrToAddr_empty_lengths (addr : TCPAddr.t) :
  addrToAddr addr = ""%string
  <-> length (TCPAddr.IP addr) <> 0%nat
      /\ length (TCPAddr.IP addr) <> IPv4len
      /\ length (TCPAddr.IP addr) <> IPv6len.
Proof.
  unfold addrToAddr.
  destruct (Nat.eqb_spec (length (TCPAddr.IP addr)) 0) as [E0|E0]; simpl.
  { split; [discriminate | intros (H & _); contradiction]. }
  destruct (IsUnspecified (TCPAddr.IP addr)) eqn:Hun.
  { split; [discriminate|]. intros (_ & H4 & H16).
    destruct (IsUnspecified_length _ Hun); contradiction. }
  unfold To4.
  destruct (Nat.eqb_spec (length (TCPAddr.IP addr)) IPv4len) as [E4|E4].
  { split; [intros H; now apply append_colon_nonempty in H|].
    intros (_ & H4 & _). contradiction. }
  rewrite (To16_not4 _ E4).
  destruct (Nat.eqb_spec (length (TCPAddr.IP addr)) IPv6len) as [E16|E16].
  - split; [|intros (_ & _ & H16); contradiction].
    simpl. destruct (_ && _).
    + intros H. now apply append_colon_nonempty in H.
    + discriminate.
  - simpl. split; [intros _; repeat split; assumption | reflexivity].
Qed.

Lemma string_app_assoc (a b c : string) :
  ((a ++ b) ++ c)%string = (a ++ b ++ c)%string.
Proof.
  induction a as [|x a IH]; [reflexivity|].
  change (String x ((a ++ b) ++ c) = String x (a ++ b ++ c))%string.
  now rewrite IH.
Qed.

(** X2: [addrToAddr] returns the empty string exactly for an IP that is
    neither empty nor 4 nor 16 bytes long; every other result is a host
    part, possibly empty, then a colon, then the port as [%c] prints
    it. *)
Theorem addrToAddr_empty_iff (addr : TCPAddr.t) :
  (addrToAddr addr = ""%string
   <-> length (TCPAddr.IP addr) <> 0%nat
       /\ length (TCPAddr.IP addr) <> IPv4len
       /\ length (TCPAddr.IP addr) <> IPv6len)
  /\ (addrToAddr addr <> ""%string ->
      exists host,
        addrToAddr addr = (host ++ ":" ++ fmt_c (TCPAddr.Port addr))%string).
Proof.
  split; [apply addrToAddr_empty_lengths|].
  unfold addrToAddr. destruct (_ || _).
  - intros _. now exists ""%string.
  - destruct (To4 (TCPAddr.IP addr)) as [bs|].
    + intros _. now exists (IP_String IP_String_other bs).
    + destruct (To16 (TCPAddr.IP addr)) as [bs|]; [|intros H; now destruct H].
      intros _. exists ("[" ++ IP_String IP_String_other bs ++ "]")%string.
      now rewrite !string_app_assoc.
Qed.

(** X3: What [resolveAddrs] does with one address: it is dropped when it
    does not parse, when its host does not resolve, and when the
    resolved IP is neither empty nor 4 nor 16 bytes long; otherwise it is
    kept with its host replaced by the text [addrToAddr] gives. *)
Theorem resolveAddrs_single (addrStr : string) :
  (url_Parse addrStr = None -> resolveAddrs [addrStr] = [])
  /\ (forall uri, url_Parse addrStr = Some uri ->
       net_ResolveTCPAddr "tcp" (URL.Host uri) = None ->
       resolveAddrs [addrStr] = [])
  /\ (forall uri addrRes, url_Parse addrStr = Some uri ->
       net_ResolveTCPAddr "tcp" (URL.Host uri) = Some addrRes ->
       length (TCPAddr.IP addrRes) <> 0%nat ->
       length (TCPAddr.IP addrRes) <> IPv4len ->
       length (TCPAddr.IP addrRes) <> IPv6len ->
       resolveAddrs [addrStr] = [])
  /\ (forall uri addrRes, url_Parse addrStr = Some uri ->
       net_ResolveTCPAddr "tcp" (URL.Host uri) = Some addrRes ->
       length (TCPAddr.IP addrRes) = 0%nat
         \/ length (TCPAddr.IP addrRes) = IPv4len
         \/ length (TCPAddr.IP addrRes) = IPv6len ->
       resolveAddrs [addrStr]
       = [URL_String (URL.setHost uri (addrToAddr addrRes))]).
Proof.
  unfold resolveAddrs. simpl. repeat split.
  - now intros ->.
  - now intros uri -> ->.
  - intros uri addrRes -> -> H0 H4 H16.
    assert (E : addrToAddr addrRes = ""%string)
      by (apply addrToAddr_empty_lengths; repeat split; assumption).
    now rewrite E.
  - intros uri addrRes -> -> Hlen.
    destruct (addrToAddr addrRes) as [|x rest] eqn:E; [|reflexivity].
    apply addrToAddr_empty_lengths in E. destruct E as (H0 & H4 & H16).
    destruct Hlen as [H|[H|H]]; contradiction.
Qed.

Lemma IsUnspecified_IPv4 (a b c d : byte) :
  IsUnspecified (IPv4 a b c d) = IsUnspecified [a; b; c; d].
Proof.
  unfold IsUnspecified, IP_Equal, bytesEqual, IPv4zero, IPv6unspecified, IPv4.
  simpl.
  rewrite !orb_false_r.
  apply bool_decide_ext. split.
  - intros E. now injection E as -> -> -> ->.
  - intros E. now injection E as -> -> -> ->.
Qed.

Lemma To4_IPv4 (a b c d : byte) : To4 (IPv4 a b c d) = Some [a; b; c; d].
Proof. reflexivity. Qed.

(** X4: [addrToAddr] does not depend on how an IPv4 address is stored: the
    16-byte form of [a.b.c.d] gives the same text as the 4-byte form, and
    the zone is ignored. *)
Theorem addrToAddr_IPv4_forms (a b c d : byte) (port : Z) (zone zone' : string) :
  addrToAddr (TCPAddr.mk (IPv4 a b c d) port zone)
  = addrToAddr (TCPAddr.mk [a; b; c; d] port zone').
Proof.
  unfold addrToAddr. cbn [TCPAddr.IP TCPAddr.Port].
  rewrite IsUnspecified_IPv4, To4_IPv4.
  reflexivity.
Qed.

(** ** Further properties of registration and lookup *)

Lemma copyID_exact (bs : list byte) :
  length bs = DeviceIDLength -> copyID bs = bs.
Proof.
  intros Hl. rewrite copyID_short by lia.
  replace (DeviceIDLength - length bs)%nat with 0%nat by lia.
  apply app_nil_r.
Qed.

(** X5: What [registerDevice] writes is what [Lookup] returns for the peer
    until the record is [CacheLifeTime] old: the normalized addresses
    and the announced relays, under the coerced identifier, which is the
    announced one when that has 32 bytes. *)
Theorem registerDevice_then_Lookup (st : state) (clk : Clock.t) (src : Addr.t)
  (device : Device.t) (now : Time) :
  now - Clock.now clk < CacheLifeTime ->
  let c := entries (fst (registerDevice st clk src device)) in
  Lookup c now (copyID (Device.ID device))
    = (registerDevice_addrs src (Device.Addresses device) [],
       Device.Relays device, None)
  /\ (length (Device.ID device) = DeviceIDLength ->
      Lookup c now (Device.ID device)
      = (registerDevice_addrs src (Device.Addresses device) [],
         Device.Relays device, None)).
Proof.
  intros Hage c.
  assert (Hl : Lookup c now (copyID (Device.ID device))
    = (registerDevice_addrs src (Device.Addresses device) [],
       Device.Relays device, None)).
  { subst c. rewrite registerDevice_entry.
    rewrite (Lookup_hit _ _ _ (registeredEntry clk src device))
      by apply lookup_insert_eq.
    simpl. destruct (Z.ltb_spec (now - Clock.now clk) CacheLifeTime);
      [reflexivity | lia]. }
  split; [exact Hl|]. intros Hlen. now rewrite copyID_exact in Hl.
Qed.

(** X6: While [Lookup] still returns the record of a peer, a new
    announcement of that peer is not a discovery: [registerDevice]
    returns false and logs nothing. *)
Theorem registerDevice_fresh_not_new (st : state) (clk : Clock.t)
  (src : Addr.t) (device : Device.t) (ce : CacheEntry.t) :
  entries st !! copyID (Device.ID device) = Some ce ->
  Clock.since clk - CacheEntry.when ce < CacheLifeTime ->
  Lookup (entries st) (Clock.since clk) (copyID (Device.ID device))
    = (CacheEntry.Direct ce, CacheEntry.Relays ce, None)
  /\ snd (registerDevice st clk src device) = false
  /\ events_Default (fst (registerDevice st clk src device)) = events_Default st.
Proof.
  intros Hc Hage. rewrite (Lookup_hit _ _ _ _ Hc), registerDevice_spec.
  simpl. rewrite Hc.
  destruct (Z.ltb_spec (Clock.since clk - CacheEntry.when ce) CacheLifeTime);
    [|lia].
  destruct (Z.ltb_spec CacheLifeTime (Clock.since clk - CacheEntry.when ce));
    [lia|].
  repeat split.
Qed.

(** X7: Once [Lookup] has nothing to return for an identifier it has nothing
    to return at any later time, as long as the cache is not written. *)
Theorem Lookup_stale_monotone (c : cache) (id : DeviceID) (t t' : Time) :
  t <= t' ->
  Lookup c t id = ([], [], None) ->
  Lookup c t' id = ([], [], None).
Proof.
  intros Ht. destruct (c !! id) as [ce|] eqn:Hc.
  - rewrite !(Lookup_hit _ _ _ _ Hc).
    destruct (Z.ltb_spec (t - CacheEntry.when ce) CacheLifeTime) as [Hf|Hs];
      destruct (Z.ltb_spec (t' - CacheEntry.when ce) CacheLifeTime);
      try reflexivity; try (intros E; exact E). lia.
  - intros _. now apply Lookup_miss.
Qed.


(** ** Further properties of the receive loop *)

(** X9: An announcement of a peer whose record is more than [CacheLifeTime]
    old is a discovery again: one event, one forced-rebroadcast signal,
    and the record is overwritten. *)
Theorem recvAnnouncement_rediscovered (st : state) (p : Packet.t)
  (pkt : Announce.t) (ce : CacheEntry.t) :
  UnmarshalXDR (Packet.buf p) = (pkt, None) ->
  Device.ID (Announce.This pkt) <> myID ->
  entries st !! copyID (Device.ID (Announce.This pkt)) = Some ce ->
  CacheLifeTime < Clock.since (Packet.clk p) - CacheEntry.when ce ->
  recvAnnouncement st p
  = mkState
      (<[copyID (Device.ID (Announce.This pkt)) :=
           registeredEntry (Packet.clk p) (Packet.addr p) (Announce.This pkt)]>
         (entries st))
      (events_Default st ++ [discoveredEvent (Announce.This pkt)])
      (forcedBcastTick st ++ [Clock.forced (Packet.clk p)]).
Proof.
  intros Hd Hid Hc Hage.
  rewrite (recvAnnouncement_accepted st p pkt None Hd (or_introl eq_refl) Hid).
  rewrite registerDevice_spec. simpl. rewrite Hc.
  destruct (Z.ltb_spec CacheLifeTime
              (Clock.since (Packet.clk p) - CacheEntry.when ce)); [|lia].
  reflexivity.
Qed.

Lemma recvAnnouncement_step (st : state) (p : Packet.t) :
  (events_Default (recvAnnouncement st p) = events_Default st
   /\ forcedBcastTick (recvAnnouncement st p) = forcedBcastTick st)
  \/ (exists ev,
        events_Default (recvAnnouncement st p) = events_Default st ++ [ev]
        /\ forcedBcastTick (recvAnnouncement st p)
           = forcedBcastTick st ++ [Clock.forced (Packet.clk p)]).
Proof.
  unfold recvAnnouncement.
  destruct (UnmarshalXDR (Packet.buf p)) as [pkt err].
  destruct (match err with
            | Some e => negb (error_eqb e io_EOF)
            | None => false
            end); [now left|].
  destruct (negb _); [|now left].
  rewrite registerDevice_spec. cbv zeta.
  destruct (match entries st !! copyID (Device.ID (Announce.This pkt)) with
            | Some ce => _
            | None => true
            end); simpl.
  - right. eexists. split; reflexivity.
  - now left.
Qed.

(** X10: Over any run of the receive loop the events published and the
    forced-rebroadcast signals sent go in step: both logs are only
    appended to, by the same number of items, at most one per packet. *)
Theorem recvAnnouncements_events_signals (ps : list Packet.t) (st : state) :
  exists evs ticks,
    events_Default (recvAnnouncements ps st) = events_Default st ++ evs
    /\ forcedBcastTick (recvAnnouncements ps st) = forcedBcastTick st ++ ticks
    /\ length evs = length ticks
    /\ (length evs <= length ps)%nat.
Proof.
  revert st. unfold recvAnnouncements.
  induction ps as [|p ps IH]; intros st; simpl.
  - exists [], []. rewrite !app_nil_r. repeat split. simpl. lia.
  - destruct (IH (recvAnnouncement st p)) as (evs & ticks & He & Hf & Hl & Hn).
    destruct (recvAnnouncement_step st p) as [[E1 E2] | (ev & E1 & E2)].
    + exists evs, ticks. rewrite He, Hf, E1, E2.
      repeat split; [exact Hl | simpl; lia].
    + exists (ev :: evs), (Clock.forced (Packet.clk p) :: ticks).
      rewrite He, Hf, E1, E2, <- !app_assoc. simpl.
      repeat split; [now rewrite Hl | lia].
Qed.

Lemma recvAnnouncements_other_peers (ps : list Packet.t) (st : state)
  (id : DeviceID) :
  Forall (fun p =>
            id <> copyID (Device.ID (Announce.This
                                       (fst (UnmarshalXDR (Packet.buf p))))))
         ps ->
  entries (recvAnnouncements ps st) !! id = entries st !! id.
Proof.
  intros Hps. revert st. unfold recvAnnouncements.
  induction Hps as [|p ps Hp _ IH]; intros st; simpl; [reflexivity|].
  rewrite IH. now apply recvAnnouncement_other_peer.
Qed.

(** X11: Over any run of the receive loop no cache entry is removed, and the
    record of an identifier that no packet of the run is coerced to is
    left as it was. *)
Theorem recvAnnouncements_cache_grows (ps : list Packet.t) (st : state) :
  (forall id, is_Some (entries st !! id) ->
              is_Some (entries (recvAnnouncements ps st) !! id))
  /\ (forall id,
        Forall (fun p =>
                  id <> copyID (Device.ID (Announce.This
                                  (fst (UnmarshalXDR (Packet.buf p))))))
               ps ->
        entries (recvAnnouncements ps st) !! id = entries st !! id).
Proof.
  split.
  - intros id. apply recvAnnouncements_keep_entries.
  - intros id. apply recvAnnouncements_other_peers.
Qed.

(** X12: Every entry the receive loop writes has a 32-byte identifier and is
    marked found: a cache whose entries are all of that kind stays so
    over any run. *)
Theorem recvAnnouncements_entries_wellformed (ps : list Packet.t) (st : state) :
  (forall id ce, entries st !! id = Some ce ->
     length id = DeviceIDLength /\ CacheEntry.found ce = true) ->
  forall id ce, entries (recvAnnouncements ps st) !! id = Some ce ->
    length id = DeviceIDLength /\ CacheEntry.found ce = true.
Proof.
  revert st. unfold recvAnnouncements.
  induction ps as [|p ps IH]; intros st Hst; simpl; [exact Hst|].
  apply IH. intros id ce.
  destruct (recvAnnouncement_entries st p) as [-> | [device ->]]; [apply Hst|].
  rewrite lookup_insert. destruct (decide _) as [<-|_]; [|apply Hst].
  intros E. injection E as <-. split; [apply copyID_length | reflexivity].
Qed.

(** X13: The test for the client's own announcements compares the identifier
    field as it was received: a field that starts with the client's 32
    bytes and goes on is not recognised, and the device is registered
    under the client's own identifier. *)
Theorem recvAnnouncement_long_self_registered (st : state) (p : Packet.t)
  (pkt : Announce.t) (extra : list byte) :
  length myID = DeviceIDLength ->
  UnmarshalXDR (Packet.buf p) = (pkt, None) ->
  Device.ID (Announce.This pkt) = myID ++ extra ->
  extra <> [] ->
  entries (recvAnnouncement st p) !! myID
  = Some (registeredEntry (Packet.clk p) (Packet.addr p) (Announce.This pkt)).
Proof.
  intros Hlen Hd Hid Hextra.
  assert (Hne : Device.ID (Announce.This pkt) <> myID).
  { rewrite Hid. intros E. apply Hextra.
    apply (app_inv_head myID). now rewrite app_nil_r. }
  assert (Hkey : copyID (Device.ID (Announce.This pkt)) = myID).
  { rewrite Hid, copyID_long by (rewrite length_app; lia).
    rewrite <- Hlen. apply take_app_length. }
  rewrite (recvAnnouncement_accepted st p pkt None Hd (or_introl eq_refl) Hne).
  cbv zeta.
  assert (E : entries (fst (registerDevice st (Packet.clk p) (Packet.addr p)
                              (Announce.This pkt))) !! myID
              = Some (registeredEntry (Packet.clk p) (Packet.addr p)
                        (Announce.This pkt))).
  { rewrite registerDevice_entry, Hkey. apply lookup_insert_eq. }
  now destruct (registerDevice _ _ _ _) as [st1 [|]].
Qed.

(** X14: When every identifier field received has 32 bytes, as the client's
    own has, the client never caches itself: over any run from a cache
    without an entry for its own identifier there is none afterwards,
    and [Lookup] of its own identifier returns nothing. *)
Theorem recvAnnouncements_self_never_cached (ps : list Packet.t) (st : state)
  (now : Time) :
  length myID = DeviceIDLength ->
  Forall (fun p =>
            length (Device.ID (Announce.This
                                 (fst (UnmarshalXDR (Packet.buf p)))))
            = DeviceIDLength) ps ->
  entries st !! myID = None ->
  entries (recvAnnouncements ps st) !! myID = None
  /\ Lookup (entries (recvAnnouncements ps st)) now myID = ([], [], None).
Proof.
  intros Hlen Hps Hnone.
  assert (H : entries (recvAnnouncements ps st) !! myID = None).
  { revert st Hnone. unfold recvAnnouncements.
    induction Hps as [|p ps Hp _ IH]; intros st Hnone; simpl; [exact Hnone|].
    apply IH.
    destruct (decide (Device.ID (Announce.This
                        (fst (UnmarshalXDR (Packet.buf p)))) = myID)) as [E|E].
    - now rewrite (recvAnnouncement_self st p E).
    - rewrite recvAnnouncement_other_peer; [exact Hnone|].
      rewrite copyID_exact by exact Hp. congruence. }
  split; [exact H | now apply Lookup_miss].
Qed.

End Client.

(** * Properties of the outgoing announcement *)

Section AnnouncementProperties.
Context {A R : Type} `{AddressLister A} `{RelayStatusProvider R}.
Variable addrList : A.
Variable relayStat : R.
Variable myID : DeviceID.
Variable AnnouncementMagic : Z.

Lemma announcementPkt_relays_omap (rs : list string) (relays : list Relay.t) :
  announcementPkt_relays relayStat rs relays
  = relays ++ omap (relayEntry relayStat) rs.
Proof.
  revert relays. induction rs as [|relay rest IH]; intros relays; simpl.
  - now rewrite app_nil_r.
  - unfold relayEntry at 1.
    destruct (RelayStatus relayStat relay) as [latency [|]]; simpl.
    + rewrite IH. now rewrite <- app_assoc.
    + apply IH.
Qed.

Lemma int32_fits (z : Z) : - 2 ^ 31 <= z < 2 ^ 31 -> int32 z = z.
Proof.
  intros Hz. unfold int32.
  change (2 ^ 31) with 2147483648 in *. change (2 ^ 32) with 4294967296.
  rewrite Z.mod_small by lia. lia.
Qed.

(** Division by a millisecond rounds toward zero. *)
Lemma millis_bounds (d : Duration) (lo hi : Z) :
  lo <= 0 <= hi ->
  (lo - 1) * Millisecond < d < (hi + 1) * Millisecond ->
  lo <= d ÷ Millisecond <= hi.
Proof.
  change Millisecond with 1000000. intros Hlh Hd.
  pose proof (Z.quot_rem d 1000000 ltac:(lia)) as Hqr.
  pose proof (Z.rem_bound_abs d 1000000 ltac:(lia)) as Hr.
  destruct (Z.le_gt_cases 0 d) as [Hpos|Hneg].
  - pose proof (Z.rem_nonneg d 1000000 ltac:(lia) Hpos). lia.
  - pose proof (Z.rem_nonpos d 1000000 ltac:(lia) ltac:(lia)). lia.
Qed.

(** C8: the relays of the outgoing announcement. A configured relay
    without a latency measurement is left out; one with a measurement is
    included, in order, with the duration divided by a millisecond
    (rounding toward zero) and converted to [int32]. That latency is the
    whole number of milliseconds whenever the number fits [int32], and
    it is not negative for a duration above minus one millisecond and
    below 2^31 milliseconds. *)
Theorem announcementPkt_relay_latency :
  let relays :=
    Device.Relays
      (Announce.This (announcementPkt addrList relayStat myID AnnouncementMagic)) in
  relays = omap (relayEntry relayStat) (Relays relayStat)
  /\ (forall relay r,
      snd (RelayStatus relayStat relay) = false ->
      In r relays -> Relay.URL r <> relay)
  /\ (forall relay,
      In relay (Relays relayStat) ->
      snd (RelayStatus relayStat relay) = true ->
      In (Relay.mk relay
            (int32 (fst (RelayStatus relayStat relay) ÷ Millisecond)))
         relays)
  /\ (forall r,
      In r relays ->
      In (Relay.URL r) (Relays relayStat)
      /\ snd (RelayStatus relayStat (Relay.URL r)) = true
      /\ Relay.Latency r
         = int32 (fst (RelayStatus relayStat (Relay.URL r)) ÷ Millisecond))
  /\ (forall r,
      In r relays ->
      - (2 ^ 31 + 1) * Millisecond
        < fst (RelayStatus relayStat (Relay.URL r)) < 2 ^ 31 * Millisecond ->
      Relay.Latency r = fst (RelayStatus relayStat (Relay.URL r)) ÷ Millisecond)
  /\ (forall r,
      In r relays ->
      - Millisecond
        < fst (RelayStatus relayStat (Relay.URL r)) < 2 ^ 31 * Millisecond ->
      Relay.Latency r = fst (RelayStatus relayStat (Relay.URL r)) ÷ Millisecond
      /\ 0 <= Relay.Latency r <= 2 ^ 31 - 1).
Proof.
  intros relays.
  assert (Hrel : relays = omap (relayEntry relayStat) (Relays relayStat)).
  { subst relays. unfold announcementPkt. simpl.
    now rewrite announcementPkt_relays_omap. }
  assert (Hin : forall r, In r relays ->
            In (Relay.URL r) (Relays relayStat)
            /\ snd (RelayStatus relayStat (Relay.URL r)) = true
            /\ Relay.Latency r
               = int32 (fst (RelayStatus relayStat (Relay.URL r)) ÷ Millisecond)).
  { intros r Hr. rewrite Hrel in Hr. apply list_elem_of_In in Hr.
    apply list_elem_of_omap in Hr. destruct Hr as (relay & Hrelay & Hentry).
    apply list_elem_of_In in Hrelay. unfold relayEntry in Hentry.
    destruct (snd (RelayStatus relayStat relay)) eqn:Hok; [|discriminate].
    injection Hentry as <-. simpl. now rewrite Hok. }
  split; [exact Hrel|]. split; [|split; [|split; [|split]]].
  - intros relay r Hoff Hr E. subst relay.
    destruct (Hin r Hr) as (_ & Hok & _). congruence.
  - intros relay Hrelay Hok. rewrite Hrel. apply list_elem_of_In.
    apply list_elem_of_omap. exists relay. split; [now apply list_elem_of_In|].
    unfold relayEntry. now rewrite Hok.
  - exact Hin.
  - intros r Hr Hd. destruct (Hin r Hr) as (_ & _ & ->).
    apply int32_fits.
    pose proof (millis_bounds (fst (RelayStatus relayStat (Relay.URL r)))
                  (- 2 ^ 31) (2 ^ 31 - 1)) as Hms.
    change (2 ^ 31) with 2147483648 in *. lia.
  - intros r Hr Hd. destruct (Hin r Hr) as (_ & _ & ->).
    pose proof (millis_bounds (fst (RelayStatus relayStat (Relay.URL r)))
                  0 (2 ^ 31 - 1)) as Hms.
    change (2 ^ 31) with 2147483648 in *.
    rewrite int32_fits by (change (2 ^ 31) with 2147483648; lia).
    split; [reflexivity | lia].
Qed.

End AnnouncementProperties.

(** * Properties of the send loop *)

Section SendProperties.
Context {A R : Type} `{AddressLister A} `{RelayStatusProvider R}.
Variable MustMarshalXDR : Announce.t -> list byte.
Variable addrList : A.
Variable relayStat : R.
Variable myID : DeviceID.
Variable AnnouncementMagic : Z.

Lemma sendLocalAnnouncements_loop_sent (msg : list byte) (ticks : list Tick)
  (sent : list (list byte)) :
  sendLocalAnnouncements_loop msg ticks sent
  = sent ++ replicate (S (length ticks)) msg.
Proof.
  revert sent. induction ticks as [|tick rest IH]; intros sent; [reflexivity|].
  simpl. destruct tick; rewrite IH, <- app_assoc; reflexivity.
Qed.

(** X15: The send loop marshals the announcement once and sends those same
    bytes every time: once at the start and once more for each tick,
    whether the tick comes from the interval timer or is a forced
    rebroadcast. *)
Theorem sendLocalAnnouncements_sends (ticks : list Tick) :
  sendLocalAnnouncements MustMarshalXDR addrList relayStat myID
    AnnouncementMagic ticks
  = replicate (S (length ticks))
      (MustMarshalXDR
         (announcementPkt addrList relayStat myID AnnouncementMagic)).
Proof.
  unfold sendLocalAnnouncements. now rewrite sendLocalAnnouncements_loop_sent.
Qed.

End SendProperties.

(** * Properties of the construction *)

Section ConstructionProperties.
Variable net_SplitHostPort : string -> (string * string) + error.
Variable strconv_Atoi : string -> Z + error.

Lemma length_zero_empty (s : string) :
  Nat.eqb (String.length s) 0 = true <-> s = ""%string.
Proof. destruct s; simpl; split; congruence. Qed.

(** X16: [NewLocal] fails exactly when the address does not split into host
    and port, or when the host is empty and the port is not a number; it
    then returns that error. Otherwise the client is an IPv4 broadcast
    client on the given port when the host is empty and an IPv6
    multicast client on the whole address when it is not, in which case
    the port is not looked at; it carries the identifier given and
    [Lookup] on its cache finds nothing. *)
Theorem NewLocal_outcome (id : DeviceID) (addr : string) :
  (forall err,
     NewLocal net_SplitHostPort strconv_Atoi id addr = inr err
     <-> net_SplitHostPort addr = inr err
         \/ exists port, net_SplitHostPort addr = inl (""%string, port)
                         /\ strconv_Atoi port = inr err)
  /\ (forall c,
      NewLocal net_SplitHostPort strconv_Atoi id addr = inl c ->
      localClient.myID c = id
      /\ (forall now device,
            Lookup (localClient.entries c) now device = ([], [], None))
      /\ ((localClient_String c = "IPv4 local"%string
           /\ exists port bcPort,
                net_SplitHostPort addr = inl (""%string, port)
                /\ strconv_Atoi port = inl bcPort
                /\ localClient.beacon c = NewBroadcast bcPort)
          \/ (localClient_String c = "IPv6 local"%string
              /\ localClient.beacon c = NewMulticast addr
              /\ exists host port,
                   net_SplitHostPort addr = inl (host, port)
                   /\ host <> ""%string))).
Proof.
  unfold NewLocal. split.
  - intros err. destruct (net_SplitHostPort addr) as [[host port]|e].
    + destruct (Nat.eqb (String.length host) 0) eqn:Eh.
      * apply length_zero_empty in Eh. subst host.
        destruct (strconv_Atoi port) as [n|e] eqn:Ea.
        -- split; [discriminate|]. intros [E | (port' & E & Ea')];
             [discriminate|]. injection E as <-. congruence.
        -- split.
           ++ intros E. injection E as <-. right. now exists port.
           ++ intros [E | (port' & E & Ea')]; [discriminate|].
              injection E as <-. congruence.
      * split; [discriminate|]. intros [E | (port' & E & _)]; [discriminate|].
        injection E as -> _. discriminate Eh.
    + split.
      * intros E. left. now injection E as ->.
      * intros [E | (port' & E & _)]; [now injection E as -> | discriminate].
  - intros c. destruct (net_SplitHostPort addr) as [[host port]|e];
      [|discriminate].
    destruct (Nat.eqb (String.length host) 0) eqn:Eh.
    + apply length_zero_empty in Eh. subst host.
      destruct (strconv_Atoi port) as [n|e] eqn:Ea; [|discriminate].
      intros E. injection E as <-. simpl.
      split; [reflexivity|]. split; [intros; now apply Lookup_miss|].
      left. split; [reflexivity|]. now exists port, n.
    + intros E. injection E as <-. simpl.
      split; [reflexivity|]. split; [intros; now apply Lookup_miss|].
      right. split; [reflexivity|]. split; [reflexivity|].
      exists host, port. split; [reflexivity|].
      intros ->. discriminate Eh.
Qed.

End ConstructionProperties.

(** * From one client to another *)

Section EndToEnd.
Context {A R : Type} `{AddressLister A} `{RelayStatusProvider R}.
Variable addrList : A.
Variable relayStat : R.
Variable senderID : DeviceID.
Variable AnnouncementMagic : Z.
Variable UnmarshalXDR : list byte -> Announce.t * option error.
Variable url_Parse : string -> option URL.t.
Variable URL_String : URL.t -> string.
Variable net_ResolveTCPAddr : string -> string -> option TCPAddr.t.
Variable net_SplitHostPort : string -> option (string * string).
Variable DeviceID_String : DeviceID -> string.
Variable myID : DeviceID.

(** X17: A client that receives the announcement another client built, the
    codec handing it over unchanged, ignores it when it carries its own
    identifier; otherwise, the sender's identifier having 32 bytes,
    [Lookup] of the sender returns, until the record is [CacheLifeTime]
    old, the sender's addresses as normalized against the packet's
    source and the sender's relays that have a latency measurement. *)
Theorem announcement_received (st : state) (p : Packet.t) :
  UnmarshalXDR (Packet.buf p)
    = (announcementPkt addrList relayStat senderID AnnouncementMagic, None) ->
  let st' :=
    recvAnnouncement UnmarshalXDR url_Parse URL_String net_ResolveTCPAddr
      net_SplitHostPort DeviceID_String myID st p in
  (senderID = myID -> st' = st)
  /\ (senderID <> myID ->
      length senderID = DeviceIDLength ->
      forall now,
        now - Clock.now (Packet.clk p) < CacheLifeTime ->
        Lookup (entries st') now senderID
        = (registerDevice_addrs url_Parse URL_String net_ResolveTCPAddr
             net_SplitHostPort (Packet.addr p) (AllAddresses addrList) [],
           omap (relayEntry relayStat) (Relays relayStat), None)).
Proof.
  intros Hd st'. split.
  - intros Hself. subst st'. apply recvAnnouncement_self. now rewrite Hd.
  - intros Hother Hlen now Hage. subst st'.
    rewrite (recvAnnouncement_accepted UnmarshalXDR url_Parse URL_String
               net_ResolveTCPAddr net_SplitHostPort DeviceID_String myID st p
               _ None Hd (or_introl eq_refl) Hother).
    cbv zeta.
    assert (E : entries (fst (registerDevice url_Parse URL_String
                  net_ResolveTCPAddr net_SplitHostPort DeviceID_String st
                  (Packet.clk p) (Packet.addr p)
                  (Announce.This (announcementPkt addrList relayStat senderID
                                    AnnouncementMagic))))
                = <[senderID :=
                      CacheEntry.mk
                        (registerDevice_addrs url_Parse URL_String
                           net_ResolveTCPAddr net_SplitHostPort (Packet.addr p)
                           (AllAddresses addrList) [])
                        (omap (relayEntry relayStat) (Relays relayStat))
                        (Clock.now (Packet.clk p)) true]> (entries st)).
    { rewrite registerDevice_entry. unfold registeredEntry, announcementPkt.
      simpl. rewrite copyID_exact by exact Hlen.
      now rewrite announcementPkt_relays_omap. }
    assert (L : forall s : state,
              entries s = <[senderID :=
                      CacheEntry.mk
                        (registerDevice_addrs url_Parse URL_String
                           net_ResolveTCPAddr net_SplitHostPort (Packet.addr p)
                           (AllAddresses addrList) [])
                        (omap (relayEntry relayStat) (Relays relayStat))
                        (Clock.now (Packet.clk p)) true]> (entries st) ->
              Lookup (entries s) now senderID
              = (registerDevice_addrs url_Parse URL_String net_ResolveTCPAddr
                   net_SplitHostPort (Packet.addr p) (AllAddresses addrList) [],
                 omap (relayEntry relayStat) (Relays relayStat), None)).
    { intros s ->. rewrite (Lookup_hit _ _ _ _ (lookup_insert_eq _ _ _)).
      simpl.
      destruct (Z.ltb_spec (now - Clock.now (Packet.clk p)) CacheLifeTime);
        [reflexivity | lia]. }
    destruct (registerDevice _ _ _ _ _ _ _ _ _) as [st1 [|]]; apply L; exact E.
Qed.

End EndToEnd.

(** * Examples

    The theorems above at concrete inputs, with the stand-ins of
    [Sample] for the collaborators and [Sample.idB] as the client's own
    identifier. *)

Abbreviation sample_registerDevice_addrs :=
  (registerDevice_addrs Sample.url_Parse Sample.URL_String
     Sample.net_ResolveTCPAddr Sample.net_SplitHostPort).
Abbreviation sample_registerDevice :=
  (registerDevice Sample.url_Parse Sample.URL_String
     Sample.net_ResolveTCPAddr Sample.net_SplitHostPort Sample.DeviceID_String).
Abbreviation sample_recvAnnouncement :=
  (recvAnnouncement Sample.UnmarshalXDR Sample.url_Parse Sample.URL_String
     Sample.net_ResolveTCPAddr Sample.net_SplitHostPort Sample.DeviceID_String
     Sample.idB).
Abbreviation sample_recvAnnouncements :=
  (recvAnnouncements Sample.UnmarshalXDR Sample.url_Parse Sample.URL_String
     Sample.net_ResolveTCPAddr Sample.net_SplitHostPort Sample.DeviceID_String
     Sample.idB).

Lemma Sample_idA_not_idB : Sample.idA <> Sample.idB.
Proof. intros E. vm_compute in E. discriminate. Defined.

(** A record written at time 1000 is returned one nanosecond before it
    is [CacheLifeTime] old and not from then on. *)
Lemma Lookup_freshness_witness :
  let ce := CacheEntry.mk ["tcp://192.0.2.5:22000"%string] [Sample.relayA] 1000 true in
  let c : cache := {[ Sample.idA := ce ]} in
  c !! Sample.idA = Some ce
  /\ Lookup c (1000 + CacheLifeTime - 1) Sample.idA
     = (["tcp://192.0.2.5:22000"%string], [Sample.relayA], None)
  /\ Lookup c (1000 + CacheLifeTime) Sample.idA = ([], [], None)
  /\ Lookup c 1000 Sample.idB = ([], [], None).
Proof.
  intros ce c.
  assert (Hc : c !! Sample.idA = Some ce) by apply lookup_singleton_eq.
  split; [exact Hc|]. split; [|split].
  - apply (proj1 (Lookup_freshness c Sample.idA ce 1000
                    (1000 + CacheLifeTime - 1) Hc eq_refl)).
    lia.
  - apply (proj1 (proj2 (Lookup_freshness c Sample.idA ce 1000
                           (1000 + CacheLifeTime) Hc eq_refl))).
    lia.
  - apply (proj2 (proj2 (Lookup_freshness c Sample.idA ce 1000 1000 Hc eq_refl))).
    apply lookup_singleton_ne, Sample_idA_not_idB.
Defined.

(** A buffer with a wrong magic number is skipped, and the announcement
    that follows it is handled as if it had come alone. *)
Lemma recvAnnouncement_decode_failure_witness :
  let bad := Packet.mk [x03] Sample.src (Clock.mk 5 5 5) in
  let good := Packet.mk [x01] Sample.src (Clock.mk 7 7 7) in
  snd (Sample.UnmarshalXDR (Packet.buf bad)) = Some ErrIncorrectMagic
  /\ ErrIncorrectMagic <> io_EOF
  /\ entries (sample_recvAnnouncement Sample.state0 bad) = entries Sample.state0
  /\ events_Default (sample_recvAnnouncement Sample.state0 bad) = []
  /\ forcedBcastTick (sample_recvAnnouncement Sample.state0 bad) = []
  /\ sample_recvAnnouncements [bad; good] Sample.state0
     = sample_recvAnnouncements [good] Sample.state0.
Proof.
  intros bad good.
  assert (He : snd (Sample.UnmarshalXDR (Packet.buf bad)) = Some ErrIncorrectMagic)
    by reflexivity.
  assert (Hne : ErrIncorrectMagic <> io_EOF) by discriminate.
  split; [exact He|]. split; [exact Hne|].
  exact (recvAnnouncement_decode_failure Sample.UnmarshalXDR Sample.url_Parse
           Sample.URL_String Sample.net_ResolveTCPAddr Sample.net_SplitHostPort
           Sample.DeviceID_String Sample.idB Sample.state0 bad [good]
           ErrIncorrectMagic He Hne).
Defined.

(** C1, as stated, fails: a buffer cut short after the device makes the
    codec report [io.EOF], which is a decoding failure, and the receive
    loop registers the device all the same: a cache entry is created, a
    discovery event is published and a forced-rebroadcast signal is
    sent. *)
Lemma recvAnnouncement_eof_counterexample :
  let p := Packet.mk [x02] Sample.src (Clock.mk 100 101 102) in
  let st := sample_recvAnnouncement Sample.state0 p in
  snd (Sample.UnmarshalXDR (Packet.buf p)) = Some io_EOF
  /\ entries Sample.state0 !! Sample.idA = None
  /\ entries st !! Sample.idA
     = Some (CacheEntry.mk ["tcp://192.0.2.5:22000"%string] [Sample.relayA] 101 true)
  /\ events_Default Sample.state0 = []
  /\ events_Default st
     = [Event.mk DeviceDiscovered (Sample.DeviceID_String Sample.idA)
          ["tcp://0.0.0.0:22000"%string] [Sample.relayA]]
  /\ forcedBcastTick Sample.state0 = []
  /\ forcedBcastTick st = [102].
Proof.
  intros p st. subst st.
  rewrite (recvAnnouncement_accepted Sample.UnmarshalXDR Sample.url_Parse
             Sample.URL_String Sample.net_ResolveTCPAddr Sample.net_SplitHostPort
             Sample.DeviceID_String Sample.idB Sample.state0 p
             (Announce.mk 0x9D79BC40 Sample.deviceA) (Some io_EOF)
             eq_refl (or_intror eq_refl) Sample_idA_not_idB).
  rewrite registerDevice_spec. simpl.
  repeat split.
Qed.

(** The end-to-end scenario: [tcp://0.0.0.0:22000] announced from
    [192.0.2.5:54321] is registered as [tcp://192.0.2.5:22000]; an
    address with a specific IP is kept; one that does not parse is
    dropped and the next one is still handled. *)
Lemma registerDevice_address_fallback_witness :
  let u := URL.mk "tcp" "" None "0.0.0.0:22000" "" "" "" in
  let tcpAddr := TCPAddr.mk [x00; x00; x00; x00] 22000 "" in
  Sample.url_Parse "tcp://0.0.0.0:22000" = Some u
  /\ Sample.net_ResolveTCPAddr "tcp" (URL.Host u) = Some tcpAddr
  /\ IsUnspecified (TCPAddr.IP tcpAddr) = true
  /\ Sample.net_SplitHostPort (Addr.String_ Sample.src)
     = Some ("192.0.2.5"%string, "54321"%string)
  /\ sample_registerDevice_addrs Sample.src ["tcp://0.0.0.0:22000"%string] []
     = ["tcp://192.0.2.5:22000"%string]
  /\ sample_registerDevice_addrs Sample.src ["tcp://192.0.2.9:22000"%string] []
     = ["tcp://192.0.2.9:22000"%string]
  /\ sample_registerDevice_addrs Sample.src
       ["%zz"%string; "tcp://0.0.0.0:22000"%string] []
     = ["tcp://192.0.2.5:22000"%string].
Proof.
  intros u tcpAddr.
  pose proof (registerDevice_address_fallback Sample.url_Parse Sample.URL_String
                Sample.net_ResolveTCPAddr Sample.net_SplitHostPort
                Sample.DeviceID_String Sample.src) as T.
  assert (Hp : Sample.url_Parse "tcp://0.0.0.0:22000" = Some u) by reflexivity.
  assert (Hr : Sample.net_ResolveTCPAddr "tcp" (URL.Host u) = Some tcpAddr)
    by reflexivity.
  assert (Hu : IsUnspecified (TCPAddr.IP tcpAddr) = true) by reflexivity.
  assert (Hs : Sample.net_SplitHostPort (Addr.String_ Sample.src)
               = Some ("192.0.2.5"%string, "54321"%string)) by reflexivity.
  assert (Hzero : sample_registerDevice_addrs Sample.src
                    ["tcp://0.0.0.0:22000"%string] []
                  = ["tcp://192.0.2.5:22000"%string]).
  { destruct (T "tcp://0.0.0.0:22000"%string []) as (_ & _ & _ & Hfill & _).
    exact (Hfill u tcpAddr _ _ Hp Hr (or_intror Hu) Hs). }
  repeat (split; [assumption|]). split.
  - destruct (T "tcp://192.0.2.9:22000"%string []) as (_ & _ & _ & _ & Hkeep & _).
    apply (Hkeep (URL.mk "tcp" "" None "192.0.2.9:22000" "" "" "")
             (TCPAddr.mk [xc0; x00; x02; x09] 22000 ""));
      [reflexivity | reflexivity | discriminate | reflexivity].
  - destruct (T "%zz"%string ["tcp://0.0.0.0:22000"%string])
      as (Hcons & Hdrop & _).
    rewrite Hcons, (Hdrop eq_refl). exact Hzero.
Defined.

(** An announcement of the client's own identifier changes nothing. *)
Lemma recvAnnouncement_self_ignored_witness :
  let p := Packet.mk [x04] Sample.src (Clock.mk 5 5 5) in
  Device.ID (Announce.This (fst (Sample.UnmarshalXDR (Packet.buf p))))
    = Sample.idB
  /\ entries (sample_recvAnnouncement Sample.state0 p) = ∅
  /\ events_Default (sample_recvAnnouncement Sample.state0 p) = []
  /\ forcedBcastTick (sample_recvAnnouncement Sample.state0 p) = []
  /\ sample_recvAnnouncements [p; p] Sample.state0 = Sample.state0.
Proof.
  intros p.
  assert (Hself : Device.ID (Announce.This (fst (Sample.UnmarshalXDR (Packet.buf p))))
                  = Sample.idB) by reflexivity.
  destruct (recvAnnouncement_self_ignored Sample.UnmarshalXDR Sample.url_Parse
              Sample.URL_String Sample.net_ResolveTCPAddr
              Sample.net_SplitHostPort Sample.DeviceID_String Sample.idB
              Sample.state0 p [p; p]) as [Hone Hrun].
  split; [exact Hself|].
  destruct (Hone Hself) as (He & Hv & Hf).
  repeat (split; [assumption|]).
  apply Hrun. repeat constructor; exact Hself.
Defined.

(** Two announcements of [Sample.idA], the second 89 seconds after the
    first: one event, one signal, and the record of the second. *)
Lemma recvAnnouncement_newly_discovered_witness :
  let p1 := Packet.mk [x01] Sample.src (Clock.mk 10 11 12) in
  let p2 := Packet.mk [x01] Sample.src
              (Clock.mk (11 + 89 * Second) (12 + 89 * Second) (13 + 89 * Second)) in
  Sample.UnmarshalXDR [x01] = (Announce.mk 0x9D79BC40 Sample.deviceA, None)
  /\ Sample.idA <> Sample.idB
  /\ entries Sample.state0 !! copyID Sample.idA = None
  /\ Clock.since (Packet.clk p2) - Clock.now (Packet.clk p1) < CacheLifeTime
  /\ sample_recvAnnouncements [p1; p2] Sample.state0
     = mkState
         (<[Sample.idA :=
              CacheEntry.mk ["tcp://192.0.2.5:22000"%string] [Sample.relayA]
                (12 + 89 * Second) true]> ∅)
         [Event.mk DeviceDiscovered (Sample.DeviceID_String Sample.idA)
            ["tcp://0.0.0.0:22000"%string] [Sample.relayA]]
         [12].
Proof.
  intros p1 p2.
  assert (Hd : Sample.UnmarshalXDR [x01]
               = (Announce.mk 0x9D79BC40 Sample.deviceA, None)) by reflexivity.
  assert (Hnone : entries Sample.state0 !! copyID Sample.idA = None)
    by reflexivity.
  assert (Hage : Clock.since (Packet.clk p2) - Clock.now (Packet.clk p1)
                 < CacheLifeTime) by reflexivity.
  repeat (split; [first [assumption | exact Sample_idA_not_idB]|]).
  exact (proj2 (proj2
    (recvAnnouncement_newly_discovered Sample.UnmarshalXDR Sample.url_Parse
       Sample.URL_String Sample.net_ResolveTCPAddr Sample.net_SplitHostPort
       Sample.DeviceID_String Sample.idB Sample.state0 p1 p2
       (Announce.mk 0x9D79BC40 Sample.deviceA)
       (Announce.mk 0x9D79BC40 Sample.deviceA)
       Hd Hd Sample_idA_not_idB Sample_idA_not_idB eq_refl Hnone Hage))).
Defined.

(** A relay measured at 12.5 ms is announced with latency 12; a relay
    without a measurement is left out. *)
Lemma announcementPkt_relay_latency_witness :
  let table : Sample.relayTable :=
    [("relay://198.51.100.7:22067"%string, (12500000, true));
     ("relay://203.0.113.4:22067"%string, (0, false))] in
  let pkt :=
    announcementPkt ["tcp://0.0.0.0:22000"%string] table Sample.idB 0x9D79BC40 in
  let r := Relay.mk "relay://198.51.100.7:22067" 12 in
  Device.Relays (Announce.This pkt) = [r]
  /\ In r (Device.Relays (Announce.This pkt))
  /\ - Millisecond < fst (RelayStatus table (Relay.URL r)) < 2 ^ 31 * Millisecond
  /\ Relay.Latency r = fst (RelayStatus table (Relay.URL r)) ÷ Millisecond
  /\ 0 <= Relay.Latency r <= 2 ^ 31 - 1.
Proof.
  intros table pkt r.
  destruct (announcementPkt_relay_latency (["tcp://0.0.0.0:22000"%string])
              table Sample.idB 0x9D79BC40) as (Hrel & _ & _ & _ & _ & Hlat).
  assert (Hin : In r (Device.Relays (Announce.This pkt))) by (left; reflexivity).
  assert (Hd : - Millisecond < fst (RelayStatus table (Relay.URL r))
               < 2 ^ 31 * Millisecond)
    by (split; reflexivity).
  split; [exact Hrel|]. split; [exact Hin|]. split; [exact Hd|].
  exact (Hlat r Hin Hd).
Defined.

(** C8, as stated, fails: a latency of 2^31 milliseconds, a duration
    well inside the range of [time.Duration], is announced as the
    negative number -2^31 and not as the count of milliseconds. *)
Lemma announcementPkt_latency_counterexample :
  let latency : Duration := 2147483648 * Millisecond in
  let table : Sample.relayTable :=
    [("relay://198.51.100.7:22067"%string, (latency, true))] in
  let pkt :=
    announcementPkt ["tcp://0.0.0.0:22000"%string] table Sample.idB 0x9D79BC40 in
  0 <= latency <= maxDuration
  /\ latency ÷ Millisecond = 2147483648
  /\ Device.Relays (Announce.This pkt)
     = [Relay.mk "relay://198.51.100.7:22067" (-2147483648)]
  /\ ~ (forall r, In r (Device.Relays (Announce.This pkt)) ->
          Relay.Latency r = latency ÷ Millisecond /\ 0 <= Relay.Latency r).
Proof.
  intros latency table pkt.
  assert (Hrel : Device.Relays (Announce.This pkt)
                 = [Relay.mk "relay://198.51.100.7:22067" (-2147483648)])
    by reflexivity.
  split; [split; discriminate|]. split; [reflexivity|]. split; [exact Hrel|].
  intros Hall. rewrite Hrel in Hall.
  destruct (Hall _ (or_introl eq_refl)) as [_ Hneg]. simpl in Hneg. lia.
Qed.

(** The identifier fields [41] and [41 00 00] are coerced to the same
    32 bytes and registered under the same key. *)
Lemma registerDevice_coerces_identifier_witness :
  let device := Device.mk ["A"%byte] ["tcp://0.0.0.0:22000"%string] [] in
  let device' := Device.mk ["A"%byte; x00; x00] [] [Sample.relayA] in
  let clk := Clock.mk 1 2 3 in
  let clk' := Clock.mk 4 5 6 in
  let id := "A"%byte :: replicate 31 x00 in
  (length (Device.ID device) <= DeviceIDLength)%nat
  /\ copyID (Device.ID device) = id
  /\ copyID (Device.ID device') = id
  /\ entries (fst (sample_registerDevice
                    (fst (sample_registerDevice Sample.state0 clk Sample.src device))
                    clk' Sample.src device'))
     = <[id := CacheEntry.mk [] [Sample.relayA] 5 true]> ∅.
Proof.
  intros device device' clk clk' id.
  destruct (registerDevice_coerces_identifier Sample.url_Parse Sample.URL_String
              Sample.net_ResolveTCPAddr Sample.net_SplitHostPort
              Sample.DeviceID_String Sample.state0 clk Sample.src device)
    as (_ & Hshort & _ & _ & _ & Hsame).
  assert (Hlen : (length (Device.ID device) <= DeviceIDLength)%nat)
    by (simpl; unfold DeviceIDLength; lia).
  assert (Hpad : forall i, (i < DeviceIDLength)%nat ->
            default x00 (Device.ID device' !! i)
            = default x00 (Device.ID device !! i)).
  { intros i _. destruct i as [|[|[|i]]]; reflexivity. }
  split; [exact Hlen|]. split; [exact (Hshort Hlen)|].
  destruct (Hsame device' clk' Sample.src Hpad) as (Hid & Hentries & _).
  split; [exact Hid|]. exact Hentries.
Defined.

(** ** Examples for the further properties *)

Abbreviation sample_addrToAddr := (addrToAddr Sample.IP_String_other).
Abbreviation sample_resolveAddrs :=
  (resolveAddrs Sample.url_Parse Sample.URL_String Sample.net_ResolveTCPAddr
     Sample.IP_String_other).

(** A 5-byte IP gives the empty string; no IP at all gives a colon and
    the port. *)
Lemma addrToAddr_empty_iff_witness :
  let odd := TCPAddr.mk [x01; x02; x03; x04; x05] 22000 "" in
  let none := TCPAddr.mk [] 22000 "" in
  (length (TCPAddr.IP odd) <> 0%nat
   /\ length (TCPAddr.IP odd) <> IPv4len
   /\ length (TCPAddr.IP odd) <> IPv6len)
  /\ sample_addrToAddr odd = ""%string
  /\ sample_addrToAddr none <> ""%string
  /\ exists host,
       sample_addrToAddr none = (host ++ ":" ++ fmt_c 22000)%string.
Proof.
  intros odd none.
  assert (Hodd : length (TCPAddr.IP odd) <> 0%nat
                 /\ length (TCPAddr.IP odd) <> IPv4len
                 /\ length (TCPAddr.IP odd) <> IPv6len)
    by (repeat split; discriminate).
  assert (Hnone : sample_addrToAddr none <> ""%string) by discriminate.
  split; [exact Hodd|]. split; [|split; [exact Hnone|]].
  - exact (proj2 (proj1 (addrToAddr_empty_iff Sample.IP_String_other odd)) Hodd).
  - exact (proj2 (addrToAddr_empty_iff Sample.IP_String_other none) Hnone).
Defined.

(** [resolveAddrs] on one address that parses and resolves to a 4-byte
    IP, and on one that does not parse. *)
Lemma resolveAddrs_single_witness :
  let uri := URL.mk "tcp" "" None "192.0.2.9:22000" "" "" "" in
  let addrRes := TCPAddr.mk [xc0; x00; x02; x09] 22000 "" in
  Sample.url_Parse "tcp://192.0.2.9:22000" = Some uri
  /\ Sample.net_ResolveTCPAddr "tcp" (URL.Host uri) = Some addrRes
  /\ length (TCPAddr.IP addrRes) = IPv4len
  /\ sample_resolveAddrs ["tcp://192.0.2.9:22000"%string]
     = [Sample.URL_String (URL.setHost uri (sample_addrToAddr addrRes))]
  /\ Sample.url_Parse "%zz" = None
  /\ sample_resolveAddrs ["%zz"%string] = [].
Proof.
  intros uri addrRes.
  assert (Hp : Sample.url_Parse "tcp://192.0.2.9:22000" = Some uri)
    by reflexivity.
  assert (Hr : Sample.net_ResolveTCPAddr "tcp" (URL.Host uri) = Some addrRes)
    by reflexivity.
  assert (Hl : length (TCPAddr.IP addrRes) = IPv4len) by reflexivity.
  repeat (split; [assumption|]). split; [|split; [reflexivity|]].
  - destruct (resolveAddrs_single Sample.url_Parse Sample.URL_String
                Sample.net_ResolveTCPAddr Sample.IP_String_other
                "tcp://192.0.2.9:22000") as (_ & _ & _ & Hkeep).
    exact (Hkeep uri addrRes Hp Hr (or_intror (or_introl Hl))).
  - destruct (resolveAddrs_single Sample.url_Parse Sample.URL_String
                Sample.net_ResolveTCPAddr Sample.IP_String_other "%zz")
      as (Hdrop & _).
    exact (Hdrop eq_refl).
Defined.

(** [Sample.deviceA] registered at time 2 is found 89 seconds later. *)
Lemma registerDevice_then_Lookup_witness :
  let clk := Clock.mk 1 2 3 in
  let c := entries (fst (sample_registerDevice Sample.state0 clk Sample.src
                           Sample.deviceA)) in
  (2 + 89 * Second) - Clock.now clk < CacheLifeTime
  /\ length (Device.ID Sample.deviceA) = DeviceIDLength
  /\ Lookup c (2 + 89 * Second) Sample.idA
     = (["tcp://192.0.2.5:22000"%string], [Sample.relayA], None).
Proof.
  intros clk c.
  assert (Hage : (2 + 89 * Second) - Clock.now clk < CacheLifeTime)
    by reflexivity.
  assert (Hlen : length (Device.ID Sample.deviceA) = DeviceIDLength)
    by reflexivity.
  split; [exact Hage|]. split; [exact Hlen|].
  exact (proj2 (registerDevice_then_Lookup Sample.url_Parse Sample.URL_String
                  Sample.net_ResolveTCPAddr Sample.net_SplitHostPort
                  Sample.DeviceID_String Sample.state0 clk Sample.src
                  Sample.deviceA (2 + 89 * Second) Hage) Hlen).
Defined.

(** A record of [Sample.idA] written at time 2 and a new announcement 89
    seconds later. *)
Lemma registerDevice_fresh_not_new_witness :
  let ce := CacheEntry.mk ["tcp://192.0.2.5:22000"%string] [] 2 true in
  let st := mkState {[ Sample.idA := ce ]} [] [] in
  let clk := Clock.mk (2 + 89 * Second) (3 + 89 * Second) (4 + 89 * Second) in
  entries st !! copyID (Device.ID Sample.deviceA) = Some ce
  /\ Clock.since clk - CacheEntry.when ce < CacheLifeTime
  /\ snd (sample_registerDevice st clk Sample.src Sample.deviceA) = false
  /\ events_Default (fst (sample_registerDevice st clk Sample.src Sample.deviceA))
     = [].
Proof.
  intros ce st clk.
  assert (Hc : entries st !! copyID (Device.ID Sample.deviceA) = Some ce)
    by apply lookup_singleton_eq.
  assert (Hage : Clock.since clk - CacheEntry.when ce < CacheLifeTime)
    by reflexivity.
  split; [exact Hc|]. split; [exact Hage|].
  exact (proj2 (registerDevice_fresh_not_new Sample.url_Parse Sample.URL_String
                  Sample.net_ResolveTCPAddr Sample.net_SplitHostPort
                  Sample.DeviceID_String st clk Sample.src Sample.deviceA ce
                  Hc Hage)).
Defined.

(** A record written at time 0 is stale at 90 seconds and at 100. *)
Lemma Lookup_stale_monotone_witness :
  let c : cache :=
    {[ Sample.idA := CacheEntry.mk ["tcp://192.0.2.5:22000"%string] [] 0 true ]} in
  90 * Second <= 100 * Second
  /\ Lookup c (90 * Second) Sample.idA = ([], [], None)
  /\ Lookup c (100 * Second) Sample.idA = ([], [], None).
Proof.
  intros c.
  assert (Ht : 90 * Second <= 100 * Second) by discriminate.
  assert (Hs : Lookup c (90 * Second) Sample.idA = ([], [], None)).
  { rewrite (Lookup_hit c _ _ _ (lookup_singleton_eq _ _)). reflexivity. }
  split; [exact Ht|]. split; [exact Hs|].
  exact (Lookup_stale_monotone c Sample.idA _ _ Ht Hs).
Defined.


(** [Sample.idA] announced again 91 seconds after its record was
    written. *)
Lemma recvAnnouncement_rediscovered_witness :
  let ce := CacheEntry.mk [] [] 0 true in
  let st := mkState {[ Sample.idA := ce ]} [] [] in
  let p := Packet.mk [x01] Sample.src
             (Clock.mk (91 * Second) (91 * Second) (91 * Second)) in
  Sample.UnmarshalXDR (Packet.buf p)
    = (Announce.mk 0x9D79BC40 Sample.deviceA, None)
  /\ entries st !! copyID Sample.idA = Some ce
  /\ CacheLifeTime < Clock.since (Packet.clk p) - CacheEntry.when ce
  /\ events_Default (sample_recvAnnouncement st p)
     = [Event.mk DeviceDiscovered (Sample.DeviceID_String Sample.idA)
          ["tcp://0.0.0.0:22000"%string] [Sample.relayA]]
  /\ forcedBcastTick (sample_recvAnnouncement st p) = [91 * Second].
Proof.
  intros ce st p.
  assert (Hd : Sample.UnmarshalXDR (Packet.buf p)
               = (Announce.mk 0x9D79BC40 Sample.deviceA, None)) by reflexivity.
  assert (Hc : entries st !! copyID Sample.idA = Some ce)
    by apply lookup_singleton_eq.
  assert (Hage : CacheLifeTime < Clock.since (Packet.clk p) - CacheEntry.when ce)
    by reflexivity.
  repeat (split; [assumption|]).
  rewrite (recvAnnouncement_rediscovered Sample.UnmarshalXDR Sample.url_Parse
             Sample.URL_String Sample.net_ResolveTCPAddr Sample.net_SplitHostPort
             Sample.DeviceID_String Sample.idB st p _ ce Hd Sample_idA_not_idB
             Hc Hage).
  split; reflexivity.
Defined.

(** A record of [Sample.idA] survives an announcement of the client's
    own identifier and a buffer that does not decode. *)
Lemma recvAnnouncements_cache_grows_witness :
  let ce := CacheEntry.mk ["tcp://192.0.2.5:22000"%string] [] 0 true in
  let st := mkState {[ Sample.idA := ce ]} [] [] in
  let ps := [Packet.mk [x04] Sample.src (Clock.mk 5 5 5);
             Packet.mk [x03] Sample.src (Clock.mk 6 6 6)] in
  is_Some (entries st !! Sample.idA)
  /\ is_Some (entries (sample_recvAnnouncements ps st) !! Sample.idA)
  /\ Forall (fun p =>
               Sample.idA
               <> copyID (Device.ID (Announce.This
                            (fst (Sample.UnmarshalXDR (Packet.buf p)))))) ps
  /\ entries (sample_recvAnnouncements ps st) !! Sample.idA = Some ce.
Proof.
  intros ce st ps.
  assert (Hc : entries st !! Sample.idA = Some ce) by apply lookup_singleton_eq.
  assert (Hs : is_Some (entries st !! Sample.idA)) by (rewrite Hc; eauto).
  assert (Hps : Forall (fun p =>
               Sample.idA
               <> copyID (Device.ID (Announce.This
                            (fst (Sample.UnmarshalXDR (Packet.buf p)))))) ps).
  { repeat constructor; intros E; vm_compute in E; discriminate. }
  destruct (recvAnnouncements_cache_grows Sample.UnmarshalXDR Sample.url_Parse
              Sample.URL_String Sample.net_ResolveTCPAddr
              Sample.net_SplitHostPort Sample.DeviceID_String Sample.idB ps st)
    as [Hkeep Hsame].
  split; [exact Hs|]. split; [exact (Hkeep _ Hs)|]. split; [exact Hps|].
  rewrite (Hsame _ Hps). exact Hc.
Defined.

(** From the empty cache, the entry written for [Sample.idA] has a
    32-byte identifier and is marked found. *)
Lemma recvAnnouncements_entries_wellformed_witness :
  let ps := [Packet.mk [x01] Sample.src (Clock.mk 5 6 7)] in
  let ce := CacheEntry.mk ["tcp://192.0.2.5:22000"%string] [Sample.relayA] 6 true in
  (forall id ce', entries Sample.state0 !! id = Some ce' ->
     length id = DeviceIDLength /\ CacheEntry.found ce' = true)
  /\ entries (sample_recvAnnouncements ps Sample.state0) !! Sample.idA = Some ce
  /\ length Sample.idA = DeviceIDLength
  /\ CacheEntry.found ce = true.
Proof.
  intros ps ce.
  assert (H0 : forall id ce', entries Sample.state0 !! id = Some ce' ->
     length id = DeviceIDLength /\ CacheEntry.found ce' = true).
  { intros id ce' E. simpl in E. rewrite lookup_empty in E. discriminate. }
  assert (Hc : entries (sample_recvAnnouncements ps Sample.state0) !! Sample.idA
               = Some ce) by reflexivity.
  split; [exact H0|]. split; [exact Hc|].
  exact (recvAnnouncements_entries_wellformed Sample.UnmarshalXDR
           Sample.url_Parse Sample.URL_String Sample.net_ResolveTCPAddr
           Sample.net_SplitHostPort Sample.DeviceID_String Sample.idB ps
           Sample.state0 H0 Sample.idA ce Hc).
Defined.

(** An announcement whose identifier field is [Sample.idB] followed by
    one more byte, received by the client [Sample.idB]. *)
Lemma recvAnnouncement_long_self_registered_witness :
  let pkt := Announce.mk 0x9D79BC40
               (Device.mk (Sample.idB ++ [x01]) ["tcp://0.0.0.0:22000"%string] []) in
  let codec := fun _ : list byte => (pkt, @None error) in
  let p := Packet.mk [x05] Sample.src (Clock.mk 5 6 7) in
  length Sample.idB = DeviceIDLength
  /\ codec (Packet.buf p) = (pkt, None)
  /\ Device.ID (Announce.This pkt) = Sample.idB ++ [x01]
  /\ [x01] <> []
  /\ entries (recvAnnouncement codec Sample.url_Parse Sample.URL_String
                Sample.net_ResolveTCPAddr Sample.net_SplitHostPort
                Sample.DeviceID_String Sample.idB Sample.state0 p)
       !! Sample.idB
     = Some (CacheEntry.mk ["tcp://192.0.2.5:22000"%string] [] 6 true).
Proof.
  intros pkt codec p.
  assert (Hlen : length Sample.idB = DeviceIDLength) by reflexivity.
  assert (Hd : codec (Packet.buf p) = (pkt, None)) by reflexivity.
  assert (Hid : Device.ID (Announce.This pkt) = Sample.idB ++ [x01])
    by reflexivity.
  assert (Hx : [x01] <> []) by discriminate.
  repeat (split; [assumption|]).
  exact (recvAnnouncement_long_self_registered codec Sample.url_Parse
           Sample.URL_String Sample.net_ResolveTCPAddr Sample.net_SplitHostPort
           Sample.DeviceID_String Sample.idB Sample.state0 p pkt [x01]
           Hlen Hd Hid Hx).
Defined.

(** After its own announcement and one of [Sample.idA] the client
    [Sample.idB] has no entry for itself. *)
Lemma recvAnnouncements_self_never_cached_witness :
  let ps := [Packet.mk [x04] Sample.src (Clock.mk 5 5 5);
             Packet.mk [x01] Sample.src (Clock.mk 6 6 6)] in
  length Sample.idB = DeviceIDLength
  /\ Forall (fun p =>
               length (Device.ID (Announce.This
                                    (fst (Sample.UnmarshalXDR (Packet.buf p)))))
               = DeviceIDLength) ps
  /\ entries Sample.state0 !! Sample.idB = None
  /\ entries (sample_recvAnnouncements ps Sample.state0) !! Sample.idB = None
  /\ Lookup (entries (sample_recvAnnouncements ps Sample.state0)) 7 Sample.idB
     = ([], [], None).
Proof.
  intros ps.
  assert (Hlen : length Sample.idB = DeviceIDLength) by reflexivity.
  assert (Hps : Forall (fun p =>
               length (Device.ID (Announce.This
                                    (fst (Sample.UnmarshalXDR (Packet.buf p)))))
               = DeviceIDLength) ps) by (repeat constructor).
  assert (Hnone : entries Sample.state0 !! Sample.idB = None) by reflexivity.
  split; [exact Hlen|]. split; [exact Hps|]. split; [exact Hnone|].
  exact (recvAnnouncements_self_never_cached Sample.UnmarshalXDR
           Sample.url_Parse Sample.URL_String Sample.net_ResolveTCPAddr
           Sample.net_SplitHostPort Sample.DeviceID_String Sample.idB ps
           Sample.state0 7 Hlen Hps Hnone).
Defined.

(** [NewLocal] on [:21025], on [[ff12::8384]:21027] and on an address
    without a port. *)
Lemma NewLocal_outcome_witness :
  let split := fun s : string =>
    if String.eqb s ":21025" then inl (""%string, "21025"%string)
    else if String.eqb s "[ff12::8384]:21027"
         then inl ("ff12::8384"%string, "21027"%string)
    else inr (OtherError "missing port in address") in
  let atoi := fun s : string =>
    if String.eqb s "21025" then inl 21025
    else inr (OtherError "invalid syntax") in
  let c4 := localClient.mk Sample.idB "IPv4 local" (NewBroadcast 21025) ∅ in
  NewLocal split atoi Sample.idB ":21025" = inl c4
  /\ localClient.myID c4 = Sample.idB
  /\ Lookup (localClient.entries c4) 0 Sample.idA = ([], [], None)
  /\ split "192.0.2.5"%string = inr (OtherError "missing port in address")
  /\ NewLocal split atoi Sample.idB "192.0.2.5"
     = inr (OtherError "missing port in address").
Proof.
  intros split atoi c4.
  assert (H4 : NewLocal split atoi Sample.idB ":21025" = inl c4) by reflexivity.
  assert (Hs : split "192.0.2.5"%string
               = inr (OtherError "missing port in address")) by reflexivity.
  destruct (NewLocal_outcome split atoi Sample.idB ":21025") as [_ Hok].
  destruct (Hok c4 H4) as (Hid & Hlook & _).
  destruct (NewLocal_outcome split atoi Sample.idB "192.0.2.5") as [Herr _].
  split; [exact H4|]. split; [exact Hid|]. split; [exact (Hlook 0 Sample.idA)|].
  split; [exact Hs|].
  exact (proj2 (Herr _) (or_introl Hs)).
Defined.

(** The announcement of a client [Sample.idA] with one unspecified
    address and one measured relay, received by the client
    [Sample.idB] from [192.0.2.5:54321]. *)
Lemma announcement_received_witness :
  let table : Sample.relayTable :=
    [("relay://198.51.100.7:22067"%string, (12500000, true))] in
  let pkt :=
    announcementPkt ["tcp://0.0.0.0:22000"%string] table Sample.idA 0x9D79BC40 in
  let codec := fun _ : list byte => (pkt, @None error) in
  let p := Packet.mk [x05] Sample.src (Clock.mk 5 6 7) in
  codec (Packet.buf p) = (pkt, None)
  /\ Sample.idA <> Sample.idB
  /\ length Sample.idA = DeviceIDLength
  /\ 10 - Clock.now (Packet.clk p) < CacheLifeTime
  /\ Lookup
       (entries (recvAnnouncement codec Sample.url_Parse Sample.URL_String
                   Sample.net_ResolveTCPAddr Sample.net_SplitHostPort
                   Sample.DeviceID_String Sample.idB Sample.state0 p))
       10 Sample.idA
     = (["tcp://192.0.2.5:22000"%string],
        [Relay.mk "relay://198.51.100.7:22067" 12], None).
Proof.
  intros table pkt codec p.
  assert (Hd : codec (Packet.buf p) = (pkt, None)) by reflexivity.
  assert (Hlen : length Sample.idA = DeviceIDLength) by reflexivity.
  assert (Hage : 10 - Clock.now (Packet.clk p) < CacheLifeTime) by reflexivity.
  split; [exact Hd|]. split; [exact Sample_idA_not_idB|].
  split; [exact Hlen|]. split; [exact Hage|].
  exact (proj2 (announcement_received (["tcp://0.0.0.0:22000"%string]) table
                  Sample.idA 0x9D79BC40 codec Sample.url_Parse Sample.URL_String
                  Sample.net_ResolveTCPAddr Sample.net_SplitHostPort
                  Sample.DeviceID_String Sample.idB Sample.state0 p Hd)
           Sample_idA_not_idB Hlen 10 Hage).
Defined.
